(** * Nord Pool Elbas price client: [nordpool/elbas.py]

    A shallow embedding of [Prices._parse_json], [Prices._fetch_json],
    [Prices.fetch] and [Prices.hourly], together with the small part of the
    Python runtime they lean on ([str.split], [str.join], [int], [format],
    [date] arithmetic and [strftime]).

    Conventions.
    - Python [str] values are modelled as [string]; every character is an
      ASCII code point.
    - A Python call that may raise returns [PyResult]: [Return v] or
      [Raise e].
    - Python dictionaries are [gmap]s keyed by strings.
    - The collaborator class [Base] lives outside [elbas.py]; it is the
      type class [Base] below and every definition is parametric in it. *)

From Stdlib Require Import ZArith Ascii String.
From stdpp Require Import base gmap strings list fin_maps.

Local Open Scope string_scope.
Local Open Scope Z_scope.

(** ** Exceptions and the result monad *)

Inductive exn : Type :=
| CurrencyMismatch
| TypeError
| IndexError
| KeyError
| ValueError
| OverflowError
| OtherError (msg : string).

Inductive PyResult (A : Type) : Type :=
| Return (a : A)
| Raise (e : exn).

Arguments Return {A} a.
Arguments Raise {A} e.

Definition bind {A B : Type} (c : PyResult A) (k : A -> PyResult B) : PyResult B :=
  match c with
  | Return a => k a
  | Raise e => Raise e
  end.

Notation "'do' x <- c ; k" := (bind c (fun x => k))
  (at level 10, x pattern, c at level 100, k at level 200).

Definition returns {A : Type} (c : PyResult A) : Prop := exists a, c = Return a.

(** ** Strings *)

Module PyStr.

(** [s.split(sep)] for a one-character separator. *)
Fixpoint split (sep : ascii) (s : string) : list string :=
  match s with
  | EmptyString => [EmptyString]
  | String c s' =>
      if Ascii.eqb c sep then EmptyString :: split sep s'
      else match split sep s' with
           | [] => [String c EmptyString]
           | w :: ws => String c w :: ws
           end
  end.

(** [sep.join(l)]. *)
Fixpoint join (sep : string) (l : list string) : string :=
  match l with
  | [] => EmptyString
  | [x] => x
  | x :: rest => x ++ sep ++ join sep rest
  end.

(** [list(s)] on a string: its one-character substrings. *)
Fixpoint chars (s : string) : list string :=
  match s with
  | EmptyString => []
  | String c s' => String c EmptyString :: chars s'
  end.

Definition code (c : ascii) : Z := Z.of_nat (nat_of_ascii c).

(** Whitespace as [int] skips it at both ends of an ASCII [str]: TAB, LF,
    VT, FF, CR and SPACE. *)
Definition is_space (c : ascii) : bool :=
  ((9 <=? code c) && (code c <=? 13)) || (code c =? 32).

Definition digit_val (c : ascii) : option Z :=
  if (48 <=? code c) && (code c <=? 57) then Some (code c - 48) else None.

Fixpoint lstrip (l : list ascii) : list ascii :=
  match l with
  | c :: l' => if is_space c then lstrip l' else l
  | [] => []
  end.

Definition strip (l : list ascii) : list ascii := rev (lstrip (rev (lstrip l))).

(** Decimal digits with single underscores allowed between digits. *)
Fixpoint int_digits (acc : Z) (prev_digit : bool) (l : list ascii) : option Z :=
  match l with
  | [] => if prev_digit then Some acc else None
  | c :: l' =>
      match digit_val c with
      | Some d => int_digits (10 * acc + d) true l'
      | None =>
          if Ascii.eqb c "_" && prev_digit
          then match l' with
               | [] => None
               | _ => int_digits acc false l'
               end
          else None
      end
  end.

(** [sys.get_int_max_str_digits()] as the interpreter starts with. *)
Definition MAX_STR_DIGITS : Z := 4300.

(** How many characters of [l] are decimal digits. *)
Fixpoint count_digits (l : list ascii) : Z :=
  match l with
  | [] => 0
  | c :: l' => match digit_val c with
               | Some _ => 1 + count_digits l'
               | None => count_digits l'
               end
  end.

(** [int(s)] in base 10: blanks at both ends, an optional sign, digits with
    single underscores between them, and no more digits than the limit. *)
Definition int (s : string) : PyResult Z :=
  let body := strip (list_ascii_of_string s) in
  let '(neg, ds) :=
    match body with
    | c :: r => if Ascii.eqb c "-" then (true, r)
                else if Ascii.eqb c "+" then (false, r)
                else (false, body)
    | [] => (false, [])
    end in
  match int_digits 0 false ds with
  | Some n =>
      if MAX_STR_DIGITS <? count_digits ds then Raise ValueError
      else Return (if neg then - n else n)
  | None => Raise ValueError
  end.

Definition digit_char (d : Z) : ascii := ascii_of_nat (Z.to_nat (48 + d mod 10)).

Fixpoint dec_aux (fuel : nat) (n : Z) (acc : string) : string :=
  match fuel with
  | O => acc
  | S f =>
      let acc' := String (digit_char n) acc in
      if n / 10 =? 0 then acc' else dec_aux f (n / 10) acc'
  end.

(** Decimal numeral of a natural number [n >= 0]. *)
Definition dec (n : Z) : string := dec_aux (S (Z.to_nat (Z.log2 n))) n EmptyString.

Fixpoint zeros (k : nat) : string :=
  match k with
  | O => EmptyString
  | S k' => String "0" (zeros k')
  end.

(** Left padding with ["0"] up to [width] characters. *)
Definition zfill (width : nat) (s : string) : string :=
  zeros (width - String.length s)%nat ++ s.

(** [str(n)], also what ["%i" % n] prints. *)
Definition of_int (n : Z) : string :=
  if n <? 0 then String "-" (dec (- n)) else dec n.

(** [format(n, "02")]: sign-aware zero padding to width 2. *)
Definition format_02 (n : Z) : string :=
  if n <? 0 then String "-" (zfill 1 (dec (- n))) else zfill 2 (dec n).

(** [x in l] for a list of strings. *)
Definition mem (x : string) (l : list string) : bool :=
  existsb (String.eqb x) l.

End PyStr.

(** ** Dates and times ([datetime] module) *)

Module PyDate.

Record date : Type := { year : Z; month : Z; day : Z }.

(** A [datetime] is its count of microseconds since 0001-01-01T00:00:00 on
    its own clock.  The time zone is left out: [+ timedelta] keeps it and
    the difference of two values that share it ignores it. *)
Definition datetime : Type := Z.

(** A [timedelta], in microseconds. *)
Definition timedelta : Type := Z.

Definition US_PER_DAY : Z := 86400000000.
Definition MAXORDINAL : Z := 3652059.

Definition hours (n : Z) : timedelta := n * 3600000000.
Definition days (n : Z) : timedelta := n * US_PER_DAY.

Definition is_leap (y : Z) : bool :=
  (y mod 4 =? 0) && (negb (y mod 100 =? 0) || (y mod 400 =? 0)).

Definition DAYS_IN_MONTH (m : Z) : Z :=
  match m with
  | 1 => 31 | 2 => 28 | 3 => 31 | 4 => 30 | 5 => 31 | 6 => 30
  | 7 => 31 | 8 => 31 | 9 => 30 | 10 => 31 | 11 => 30 | 12 => 31
  | _ => -1
  end.

Definition DAYS_BEFORE_MONTH (m : Z) : Z :=
  match m with
  | 1 => 0 | 2 => 31 | 3 => 59 | 4 => 90 | 5 => 120 | 6 => 151
  | 7 => 181 | 8 => 212 | 9 => 243 | 10 => 273 | 11 => 304 | 12 => 334
  | _ => -1
  end.

Definition days_before_year (y : Z) : Z :=
  let y := y - 1 in y * 365 + y / 4 - y / 100 + y / 400.

Definition days_in_month (y m : Z) : Z :=
  if (m =? 2) && is_leap y then 29 else DAYS_IN_MONTH m.

Definition days_before_month (y m : Z) : Z :=
  DAYS_BEFORE_MONTH m + (if (2 <? m) && is_leap y then 1 else 0).

Definition valid (d : date) : Prop :=
  1 <= year d <= 9999 /\ 1 <= month d <= 12 /\
  1 <= day d <= days_in_month (year d) (month d).

(** [d.toordinal()]. *)
Definition toordinal (d : date) : Z :=
  days_before_year (year d) + days_before_month (year d) (month d) + day d.

Definition DI400Y : Z := 146097.
Definition DI100Y : Z := 36524.
Definition DI4Y : Z := 1461.

(** [date.fromordinal(n)]. *)
Definition fromordinal (n : Z) : date :=
  let n := n - 1 in
  let n400 := n / DI400Y in
  let n := n mod DI400Y in
  let y := n400 * 400 + 1 in
  let n100 := n / DI100Y in
  let n := n mod DI100Y in
  let n4 := n / DI4Y in
  let n := n mod DI4Y in
  let n1 := n / 365 in
  let n := n mod 365 in
  let y := y + n100 * 100 + n4 * 4 + n1 in
  if (n1 =? 4) || (n100 =? 4) then {| year := y - 1; month := 12; day := 31 |}
  else
    let leapyear := (n1 =? 3) && (negb (n4 =? 24) || (n100 =? 3)) in
    let m := Z.shiftr (n + 50) 5 in
    let preceding := DAYS_BEFORE_MONTH m + (if (2 <? m) && leapyear then 1 else 0) in
    if n <? preceding then
      let m := m - 1 in
      let preceding :=
        preceding - (DAYS_IN_MONTH m + (if (m =? 2) && leapyear then 1 else 0)) in
      {| year := y; month := m; day := n - preceding + 1 |}
    else {| year := y; month := m; day := n - preceding + 1 |}.

(** [d + delta] on a date: only whole days of [delta] count. *)
Definition date_add (d : date) (delta : timedelta) : PyResult date :=
  let o := toordinal d + delta / US_PER_DAY in
  if (0 <? o) && (o <=? MAXORDINAL) then Return (fromordinal o)
  else Raise OverflowError.

(** [d - delta], which Python computes as [d + timedelta(-delta.days)]. *)
Definition date_sub (d : date) (delta : timedelta) : PyResult date :=
  date_add d (days (- (delta / US_PER_DAY))).

(** [t + delta] on a datetime. *)
Definition add (t : datetime) (delta : timedelta) : PyResult datetime :=
  let t' := t + delta in
  if (0 <=? t') && (t' <? MAXORDINAL * US_PER_DAY) then Return t'
  else Raise OverflowError.

(** [t2 - t1] on datetimes. *)
Definition sub (t2 t1 : datetime) : timedelta := t2 - t1.

(** The calendar date a datetime falls on. *)
Definition date_of (t : datetime) : date := fromordinal (t / US_PER_DAY + 1).

(** [d.strftime("%d-%m-%Y")]: day and month on two digits, the year as
    glibc prints it, without padding (a C library that pads to four digits
    differs only before the year 1000). *)
Definition strftime_dmY (d : date) : string :=
  PyStr.zfill 2 (PyStr.of_int (day d)) ++ "-" ++
  PyStr.zfill 2 (PyStr.of_int (month d)) ++ "-" ++
  PyStr.of_int (year d).

End PyDate.

Import PyDate.

(** ** The collaborator class and the outside world *)

(** What [elbas.py] uses of [Base]: the configured [currency] and
    [timeout], and the helpers [_parse_dt] and [_conv_to_float]. *)
Class Base : Type := {
  Float : Type;
  Timeout : Type;
  currency : string;
  timeout : Timeout;
  _parse_dt : string -> PyResult datetime;
  _conv_to_float : string -> PyResult Float
}.

(** A sequence argument as a caller may pass it. *)
Inductive PySeq : Type :=
| SeqNone
| SeqStr (s : string)
| SeqList (l : list string)
| SeqTuple (l : list string).

(** The [end_date] argument as a caller may pass it. *)
Inductive EndDateArg : Type :=
| EndNone
| EndDate (d : date)
| EndDateTime (t : datetime)
| EndStr (s : string).

(** ** The response document *)

Record RawColumn : Type := { col_Name : string; col_Value : string }.

Record RawRow : Type := {
  row_Name : option string;
  row_IsExtraRow : bool;
  row_Columns : list RawColumn
}.

Record ResponseData : Type := { DateUpdated : string; Rows : list RawRow }.

Record Response : Type := { resp_currency : string; resp_data : ResponseData }.

(** ** The request *)

Record Request `{Base} : Type := {
  req_url : string;
  req_params : list (string * string);
  req_timeout : Timeout
}.

(** [date.today()], [requests.get(...).json()] and [dateutil.parser.parse]. *)
Class World `{Base} : Type := {
  today : date;
  requests_get_json : Request -> PyResult Response;
  parse_dt : string -> PyResult datetime
}.

(** ** Python helpers on sequences and dictionaries *)

(** [list(x)]. *)
Definition py_list (x : PySeq) : PyResult (list string) :=
  match x with
  | SeqNone => Raise TypeError
  | SeqStr s => Return (PyStr.chars s)
  | SeqList l => Return l
  | SeqTuple l => Return l
  end.

(** [x if isinstance(x, list) else list(x)]. *)
Definition as_list (x : PySeq) : PyResult (list string) :=
  match x with
  | SeqList l => Return l
  | _ => py_list x
  end.

(** ["".join(x)]. *)
Definition join_seq (x : PySeq) : PyResult string :=
  match x with
  | SeqNone => Raise TypeError
  | SeqStr s => Return (PyStr.join "" (PyStr.chars s))
  | SeqList l => Return (PyStr.join "" l)
  | SeqTuple l => Return (PyStr.join "" l)
  end.

(** [l[i]]. *)
Definition index {A : Type} (l : list A) (i : nat) : PyResult A :=
  match l !! i with
  | Some x => Return x
  | None => Raise IndexError
  end.

(** [d[k]]. *)
Definition getitem {V : Type} (d : gmap string V) (k : string) : PyResult V :=
  match d !! k with
  | Some v => Return v
  | None => Raise KeyError
  end.

(** A [for] loop whose body may raise. *)
Fixpoint for_each {A S : Type} (body : S -> A -> PyResult S) (l : list A) (s : S)
  : PyResult S :=
  match l with
  | [] => Return s
  | x :: l' => do s' <- body s x; for_each body l' s'
  end.

(** ** [class Prices(Base)] *)

Section Prices.

Context {self : Base}.

Inductive Value : Type :=
| VStr (s : string)
| VFloat (f : Float).

Record PricePoint : Type := {
  pp_start : datetime;
  pp_end : datetime;
  pp_value : Value
}.

Record FetchResult : Type := {
  res_updated : datetime;
  res_currency : string;
  res_areas : gmap string (gmap string (list PricePoint))
}.

Definition HOURLY : Z := 194.

(** [API_URL % data_type]. *)
Definition API_URL (data_type : Z) : string :=
  "https://www.nordpoolgroup.com/api/marketdata/page/" ++ PyStr.of_int data_type.

(** The tokens of a row name, line 51. *)
Definition row_tokens (n : string) : list string :=
  PyStr.split " " (PyStr.join " " (PyStr.split "-" n)).

(** The string handed to [_parse_dt], line 56. *)
Definition row_start_arg (name : list string) : PyResult string :=
  do n1 <- index name 1;
  do n2 <- index name 2;
  do h <- PyStr.int n2;
  Return (PyStr.join "-" [n1; PyStr.format_02 (h - 1)]).

(** [row_start_time] and [row_end_time], lines 55-59. *)
Definition row_times (name : list string) : PyResult (datetime * datetime) :=
  do arg <- row_start_arg name;
  do row_start_time <- _parse_dt arg;
  do row_end_time <- PyDate.add row_start_time (hours 1);
  Return (row_start_time, row_end_time).

(** The body of the loop over [r["Columns"]], lines 61-93. *)
Definition column_step (columns areas : list string) (r : RawRow)
    (row_start_time row_end_time : datetime)
    (areas_data : gmap string (gmap string (list PricePoint))) (c : RawColumn)
  : PyResult (gmap string (gmap string (list PricePoint))) :=
  let name := col_Name c in
  if negb (bool_decide (columns = [])) && negb (PyStr.mem name columns)
  then Return areas_data
  else
    do a0 <- index areas 0;
    do series <- getitem areas_data a0;
    do areas_data <-
      match series !! name with
      | None =>
          do a0 <- index areas 0;
          do series <- getitem areas_data a0;
          Return (<[a0 := <[name := []]> series]> areas_data)
      | Some _ => Return areas_data
      end;
    if row_IsExtraRow r then Return areas_data
    else
      do a0 <- index areas 0;
      do series <- getitem areas_data a0;
      do points <- getitem series name;
      do v <-
        (if String.eqb name "Product" then Return (VStr (col_Value c))
         else do f <- _conv_to_float (col_Value c); Return (VFloat f));
      let point := {| pp_start := row_start_time;
                      pp_end := row_end_time;
                      pp_value := v |} in
      Return (<[a0 := <[name := (points ++ [point])%list]> series]> areas_data).

(** The body of the loop over [data["Rows"]], lines 49-93. *)
Definition row_step (columns areas : list string)
    (areas_data : gmap string (gmap string (list PricePoint))) (r : RawRow)
  : PyResult (gmap string (gmap string (list PricePoint))) :=
  match row_Name r with
  | None => Return areas_data
  | Some n =>
      let name := row_tokens n in
      do name0 <- index name 0;
      if negb (String.eqb name0 "PH") then Return areas_data
      else
        do times <- row_times name;
        for_each (column_step columns areas r (fst times) (snd times))
                 (row_Columns r) areas_data
  end.

Definition _parse_json (data : Response) (columns areas : PySeq)
  : PyResult FetchResult :=
  do areas <- as_list areas;
  do columns <- as_list columns;
  let currency' := resp_currency data in
  if negb (String.eqb currency' currency) then Raise CurrencyMismatch
  else
    let data := resp_data data in
    do updated <- _parse_dt (DateUpdated data);
    do a0 <- index areas 0;
    let areas_data := <[a0 := ∅]> (∅ : gmap string (gmap string (list PricePoint))) in
    do areas_data <- for_each (row_step columns areas) (Rows data) areas_data;
    Return {| res_updated := updated;
              res_currency := currency';
              res_areas := areas_data |}.

(** *** Network side *)

Context {world : World}.

(** A computation that may issue requests: it extends the log of requests
    sent so far. *)
Definition IO (A : Type) : Type := list Request -> PyResult A * list Request.

Definition io_bind {A B : Type} (c : IO A) (k : A -> IO B) : IO B :=
  fun log =>
    match c log with
    | (Return a, log') => k a log'
    | (Raise e, log') => (Raise e, log')
    end.

Definition io_lift {A : Type} (c : PyResult A) : IO A := fun log => (c, log).

(** [requests.get(url, params=..., timeout=...)] followed by [.json()]. *)
Definition requests_get (req : Request) : IO Response :=
  fun log => (requests_get_json req, (log ++ [req])%list).

(** The date whose [strftime] is sent, lines 99-103. *)
Definition resolve_end_date (end_date : EndDateArg) : PyResult date :=
  match end_date with
  | EndNone => date_sub today (days 1)
  | EndDate d => Return d
  | EndDateTime t => Return (date_of t)
  | EndStr s => do t <- parse_dt s; Return (date_of t)
  end.

(** The arguments of [requests.get], lines 106-112. *)
Definition build_request (data_type : Z) (areas : PySeq) (end_date : date)
  : PyResult Request :=
  let url := API_URL data_type in
  let cur := currency in
  let endDate := strftime_dmY end_date in
  do entityName <- join_seq areas;
  Return {| req_url := url;
            req_params := [("currency", cur); ("endDate", endDate);
                           ("entityName", entityName)];
            req_timeout := timeout |}.

Definition _fetch_json (data_type : Z) (areas : PySeq) (end_date : EndDateArg)
  : IO Response :=
  io_bind (io_lift (resolve_end_date end_date)) (fun end_date =>
  io_bind (io_lift (build_request data_type areas end_date)) (fun req =>
  requests_get req)).

Definition fetch (data_type : Z) (columns : PySeq) (end_date : EndDateArg)
    (areas : PySeq) : IO FetchResult :=
  io_bind (_fetch_json data_type areas end_date) (fun data =>
  io_lift (_parse_json data columns areas)).

Definition hourly (end_date : EndDateArg) (areas columns : PySeq) : IO FetchResult :=
  let columns :=
    match columns with
    | SeqNone => SeqList ["Product"; "High"; "Low"; "Last"; "Avg"; "Volume"]
    | _ => columns
    end in
  fetch HOURLY columns end_date areas.

End Prices.

(** ** Vocabulary of the statements *)

(** Whether the character [c] occurs in [s]. *)
Fixpoint has_char (c : ascii) (s : string) : bool :=
  match s with
  | EmptyString => false
  | String c' s' => Ascii.eqb c' c || has_char c s'
  end.

(** [f] on [lo], [lo + 1], ... for [n] integers. *)
Fixpoint check_from (f : Z -> bool) (lo : Z) (n : nat) : bool :=
  match n with
  | O => true
  | S n' => f lo && check_from f (lo + 1) n'
  end.

(** A row that lines 49-54 pass over. *)
Definition skipped (r : RawRow) : Prop :=
  row_Name r = None \/
  exists n, row_Name r = Some n /\ head (row_tokens n) <> Some "PH".

(** A row that reaches the loop over its columns. *)
Definition retained (r : RawRow) : Prop :=
  exists n, row_Name r = Some n /\ head (row_tokens n) = Some "PH".

(** Month and day of the [n]-th day of a year, counted from 0, as the last
    lines of [fromordinal] find them. *)
Definition month_day (leapyear : bool) (n : Z) : Z * Z :=
  let m := Z.shiftr (n + 50) 5 in
  let preceding := DAYS_BEFORE_MONTH m + (if (2 <? m) && leapyear then 1 else 0) in
  if n <? preceding then
    let m := m - 1 in
    let preceding :=
      preceding - (DAYS_IN_MONTH m + (if (m =? 2) && leapyear then 1 else 0)) in
    (m, n - preceding + 1)
  else (m, n - preceding + 1).

(** The length of month [m] in a year known by its leap flag. *)
Definition dim (leapyear : bool) (m : Z) : Z :=
  if (m =? 2) && leapyear then 29 else DAYS_IN_MONTH m.

(** The days of the year before month [m]. *)
Definition dbm (leapyear : bool) (m : Z) : Z :=
  DAYS_BEFORE_MONTH m + (if (2 <? m) && leapyear then 1 else 0).

(** [month_day] yields a month, a day of that month, and the right count. *)
Definition month_day_ok (leapyear : bool) (n : Z) : bool :=
  let md := month_day leapyear n in
  (1 <=? fst md) && (fst md <=? 12) &&
  (1 <=? snd md) && (snd md <=? dim leapyear (fst md)) &&
  (dbm leapyear (fst md) + snd md =? n + 1).

(** The last two, and the last four, decimal digits of [n]. *)
Definition two_digits (n : Z) : string :=
  String (PyStr.digit_char (n / 10)) (String (PyStr.digit_char n) EmptyString).

Definition four_digits (n : Z) : string :=
  String (PyStr.digit_char (n / 1000)) (String (PyStr.digit_char (n / 100))
    (two_digits n)).

(** A date written [DD-MM-YYYY]: ten characters, digits around two dashes. *)
Definition DD_MM_YYYY (d : date) : string :=
  two_digits (day d) ++ "-" ++ two_digits (month d) ++ "-" ++ four_digits (year d).

(** The strings of a sequence put end to end. *)
Definition concatenated (l : list string) : string :=
  fold_right String.append EmptyString l.

(** A look at the value a computation returns. *)
Definition observe {A B : Type} (c : PyResult A) (f : A -> B) : PyResult B :=
  do x <- c; Return (f x).

(** Whether a computation returns rather than raises. *)
Definition succeeds {A : Type} (c : PyResult A) : bool :=
  match c with
  | Return _ => true
  | Raise _ => false
  end.

Section Vocabulary.

Context {self : Base}.

(** [areas_data[a][k]] when both keys are there. *)
Definition lookup2 (areas_data : gmap string (gmap string (list PricePoint)))
    (a k : string) : option (list PricePoint) :=
  match areas_data !! a with
  | Some series => series !! k
  | None => None
  end.

(** The column list of a series once line 66 has run for [name]. *)
Definition with_key (series : gmap string (list PricePoint)) (name : string)
  : gmap string (list PricePoint) :=
  match series !! name with
  | None => <[name := []]> series
  | Some _ => series
  end.

(** The value stored for a column, lines 76-92. *)
Definition column_value (c : RawColumn) : PyResult Value :=
  if String.eqb (col_Name c) "Product" then Return (VStr (col_Value c))
  else do f <- _conv_to_float (col_Value c); Return (VFloat f).

(** [new] is [old], or it is [old], an absent list counting as empty, with
    points that satisfy [P] added at the end. *)
Definition grows_by (P : PricePoint -> Prop) (old new : option (list PricePoint)) : Prop :=
  exists added, new = old /\ added = [] \/
                (new = Some (default [] old ++ added)%list /\ Forall P added).

End Vocabulary.

(** ** A concrete fetcher to run the definitions on

    Time stamps are written [YYYYMMDD-HH], prices are whole numbers and the
    network answers every request with [Sample.response]. *)

Module Sample.

Definition parse_stamp (s : string) : PyResult datetime :=
  match PyStr.split "-" s with
  | [d; h] =>
      if (String.length d =? 8)%nat then
        do y <- PyStr.int (substring 0 4 d);
        do m <- PyStr.int (substring 4 2 d);
        do dd <- PyStr.int (substring 6 2 d);
        do hh <- PyStr.int h;
        Return ((toordinal {| year := y; month := m; day := dd |} - 1) * US_PER_DAY
                + hours hh)
      else Raise ValueError
  | _ => Raise ValueError
  end.

Definition base : Base :=
  {| Float := Z;
     Timeout := option Z;
     currency := "EUR";
     timeout := Some 10;
     _parse_dt := parse_stamp;
     _conv_to_float := PyStr.int |}.

Definition col (n v : string) : RawColumn := {| col_Name := n; col_Value := v |}.

Definition row (n : option string) (extra : bool) (cs : list RawColumn) : RawRow :=
  {| row_Name := n; row_IsExtraRow := extra; row_Columns := cs |}.

Definition rows : list RawRow :=
  [ row (Some "PH-20231015-01") false
        [col "Product" "PH-20231015-01"; col "High" "52"; col "Low" "40"];
    row None false [col "High" "1"];
    row (Some "PB-20231015-01") false [col "High" "2"];
    row (Some "PH-20231015-02") false
        [col "Product" "PH-20231015-02"; col "High" "61"; col "Low" "45"];
    row (Some "PH-20231015-25") true [col "High" "3"; col "Avg" "4"] ].

Definition response_in (cur : string) : Response :=
  {| resp_currency := cur;
     resp_data := {| DateUpdated := "20231016-12"; Rows := rows |} |}.

Definition response : Response := response_in "EUR".

(** A network whose answers are in currency [cur]; today is 2024-03-01. *)
Definition world_in (cur : string) : @World base :=
  {| today := {| year := 2024; month := 3; day := 1 |};
     requests_get_json := fun _ => Return (response_in cur);
     parse_dt := parse_stamp |}.

Definition world : @World base := world_in "EUR".

(** The request for page 194 with the given [endDate] and [entityName]. *)
Definition request (end_date entity : string) : @Request base :=
  @Build_Request base
    "https://www.nordpoolgroup.com/api/marketdata/page/194"
    [("currency", "EUR"); ("endDate", end_date); ("entityName", entity)]
    (Some 10).

(** A point with a numeric value. *)
Definition point (s e v : Z) : @PricePoint base :=
  @Build_PricePoint base s e (@VFloat base v).

(** The area map as line 45 leaves it for [areas = ["FI"]]. *)
Definition start : gmap string (gmap string (list (@PricePoint base))) :=
  {[ "FI" := ∅ ]}.

(** The last row of [rows], flagged [IsExtraRow]. *)
Definition extra_row : RawRow :=
  row (Some "PH-20231015-25") true [col "High" "3"; col "Avg" "4"].

End Sample.

(** ** Vocabulary of the further statements *)

Section Expected.

Context {self : Base}.

(** Whether the filter of line 63 lets the column name through. *)
Definition requested (columns : list string) (name : string) : bool :=
  bool_decide (columns = []) || PyStr.mem name columns.

(** The points one column adds to the list of key [k]. *)
Definition column_points (columns : list string) (k : string) (r : RawRow)
    (ts te : datetime) (c : RawColumn) : list PricePoint :=
  if requested columns (col_Name c) && String.eqb (col_Name c) k
     && negb (row_IsExtraRow r)
  then match column_value c with
       | Return v => [{| pp_start := ts; pp_end := te; pp_value := v |}]
       | Raise _ => []
       end
  else [].

(** The points one row adds to the list of key [k], in column order. *)
Definition row_points (columns : list string) (k : string) (r : RawRow)
  : list PricePoint :=
  match row_Name r with
  | None => []
  | Some n =>
      match head (row_tokens n) with
      | Some t =>
          if String.eqb t "PH" then
            match row_times (row_tokens n) with
            | Return (ts, te) =>
                flat_map (column_points columns k r ts te) (row_Columns r)
            | Raise _ => []
            end
          else []
      | None => []
      end
  end.

(** The list stored under area [a] and key [k], empty when there is none. *)
Definition points_at (areas_data : gmap string (gmap string (list PricePoint)))
    (a k : string) : list PricePoint :=
  default [] (lookup2 areas_data a k).

(** A column of a retained row that passes the filter and is named [k]. *)
Definition key_source (columns : list string) (k : string) (r : RawRow) : Prop :=
  retained r /\
  exists c, In c (row_Columns r) /\ col_Name c = k /\ requested columns k = true.

End Expected.

(** The request [_fetch_json] sends for the date [d] and the areas [l]. *)
Definition request_for `{Base} (data_type : Z) (d : date) (l : list string) : Request :=
  {| req_url := API_URL data_type;
     req_params := [("currency", currency);
                    ("endDate", strftime_dmY d);
                    ("entityName", concatenated l)];
     req_timeout := timeout |}.

(** The sample fetcher on a network that is down. *)
Definition down_world (e : exn) : @World Sample.base :=
  {| today := {| year := 2024; month := 3; day := 1 |};
     requests_get_json := fun _ => Raise e;
     parse_dt := Sample.parse_stamp |}.

(** The default columns of [hourly]. *)
Definition HOURLY_COLUMNS : list string :=
  ["Product"; "High"; "Low"; "Last"; "Avg"; "Volume"].

(** * Properties *)

(** ** Generic facts on the result monad and on loops *)

Lemma bind_Return {A B : Type} (c : PyResult A) (k : A -> PyResult B) (b : B) :
  bind c k = Return b -> exists a, c = Return a /\ k a = Return b.
Proof. destruct c as [a|e]; simpl; [eauto | discriminate]. Qed.

Ltac bind_inv H :=
  let a := fresh "x" in
  let Ha := fresh "Hx" in
  apply bind_Return in H; destruct H as (a & Ha & H).

(** A property kept by every successful run of the body is kept by the loop. *)
Lemma for_each_preserves {A S : Type} (P : S -> Prop) (body : S -> A -> PyResult S) :
  (forall s x s', P s -> body s x = Return s' -> P s') ->
  forall l s s', P s -> for_each body l s = Return s' -> P s'.
Proof.
  intros Hbody l. induction l as [|x l IH]; simpl; intros s s' Hs Hrun.
  - congruence.
  - bind_inv Hrun. eauto.
Qed.

(** What the body sets up for its own element, and no later run undoes,
    holds for every element once the loop is over. *)
Lemma for_each_establishes {A S : Type} (Q : A -> S -> Prop)
    (body : S -> A -> PyResult S) :
  (forall s x s', body s x = Return s' -> Q x s') ->
  (forall y s x s', Q y s -> body s x = Return s' -> Q y s') ->
  forall l s s', for_each body l s = Return s' -> forall x, In x l -> Q x s'.
Proof.
  intros Hset Hkeep l. induction l as [|y l IH]; simpl; intros s s' Hrun x Hin.
  - contradiction.
  - bind_inv Hrun. destruct Hin as [->|Hin].
    + eapply (for_each_preserves (Q x)); [| eapply Hset; eassumption | eassumption].
      intros; eapply Hkeep; eassumption.
    + eapply IH; eassumption.
Qed.

(** An element on which the body does nothing can be dropped from the loop. *)
Lemma for_each_skip {A S : Type} (body : S -> A -> PyResult S) (x : A) :
  (forall s, body s x = Return s) ->
  forall pre post s, for_each body (pre ++ x :: post)%list s = for_each body (pre ++ post)%list s.
Proof.
  intros Hskip pre. induction pre as [|y pre IH]; simpl; intros post s.
  - now rewrite Hskip.
  - destruct (body s y); simpl; auto.
Qed.

Lemma index_0 {A : Type} (l : list A) (a : A) :
  index l 0 = Return a -> exists rest, l = a :: rest.
Proof. destruct l; unfold index; simpl; intros [=]; subst; eauto. Qed.

Lemma getitem_Return {V : Type} (d : gmap string V) (k : string) (v : V) :
  getitem d k = Return v <-> d !! k = Some v.
Proof. unfold getitem. destruct (d !! k); split; congruence. Qed.

Lemma observe_Return {A B : Type} (c : PyResult A) (f : A -> B) (v : B) :
  observe c f = Return v -> exists x, c = Return x /\ f x = v.
Proof. unfold observe. intros E. bind_inv E. injection E as <-. eauto. Qed.

Lemma succeeds_returns {A : Type} (c : PyResult A) : succeeds c = true -> returns c.
Proof. destruct c; [eexists; reflexivity | discriminate]. Qed.

(** ** Strings and decimal numerals *)

Lemma split_no_sep (sep : ascii) (s : string) :
  has_char sep s = false -> PyStr.split sep s = [s].
Proof.
  induction s as [|c s IH]; simpl; [reflexivity|].
  intros H. apply orb_false_iff in H as [Hc Hs].
  rewrite Hc, (IH Hs). reflexivity.
Qed.

Lemma split_app (sep : ascii) (s1 s2 : string) :
  has_char sep s1 = false ->
  PyStr.split sep (s1 ++ String sep s2) = s1 :: PyStr.split sep s2.
Proof.
  induction s1 as [|c s1 IH]; simpl.
  - intros _. now rewrite Ascii.eqb_refl.
  - intros H. apply orb_false_iff in H as [Hc Hs].
    rewrite Hc, (IH Hs). reflexivity.
Qed.

Lemma check_from_spec (f : Z -> bool) (n : nat) :
  forall lo, check_from f lo n = true ->
  forall z, lo <= z < lo + Z.of_nat n -> f z = true.
Proof.
  induction n as [|n IH]; simpl; intros lo Hall z Hz; [lia|].
  apply andb_true_iff in Hall as [Hlo Hrest].
  destruct (decide (z = lo)) as [->|Hne]; [assumption|].
  apply (IH (lo + 1)); [assumption | lia].
Qed.

(** Every integer of a range passes a test that a run over the range passes. *)
Lemma Z_range_check (f : Z -> bool) (lo hi : Z) :
  check_from f lo (Z.to_nat (hi - lo)) = true ->
  forall z, lo <= z < hi -> f z = true.
Proof.
  intros Hall z Hz. apply (check_from_spec f _ lo Hall). lia.
Qed.

Lemma zfill_2_digits (n : Z) :
  0 <= n <= 99 -> PyStr.zfill 2 (PyStr.of_int n) = two_digits n.
Proof.
  intros Hn.
  apply String.eqb_eq.
  apply (Z_range_check (fun n => String.eqb (PyStr.zfill 2 (PyStr.of_int n)) (two_digits n))
           0 100); [vm_compute; reflexivity | lia].
Qed.

Lemma of_int_4_digits (n : Z) :
  1000 <= n <= 9999 -> PyStr.of_int n = four_digits n.
Proof.
  intros Hn.
  apply String.eqb_eq.
  apply (Z_range_check (fun n => String.eqb (PyStr.of_int n) (four_digits n))
           1000 10000); [vm_compute; reflexivity | lia].
Qed.

(** For 0..99 [format(n, "02")] is the two digits of [n]. *)
Lemma format_02_digits (n : Z) : 0 <= n <= 99 -> PyStr.format_02 n = two_digits n.
Proof.
  intros Hn. rewrite <- zfill_2_digits by assumption.
  unfold PyStr.format_02, PyStr.of_int.
  destruct (n <? 0) eqn:Hneg; [apply Z.ltb_lt in Hneg; lia | reflexivity].
Qed.

Section ParseProperties.

Context {self : Base}.

Implicit Types (areas_data : gmap string (gmap string (list PricePoint))).

(** *** Currency *)

(* The check of line 36 as seen from the caller of [_parse_json]. *)
Lemma parse_json_currency (data : Response) (columns areas : PySeq) :
  (resp_currency data <> currency ->
     (forall r, _parse_json data columns areas <> Return r) /\
     (returns (as_list areas) -> returns (as_list columns) ->
      _parse_json data columns areas = Raise CurrencyMismatch)) /\
  (forall r, _parse_json data columns areas = Return r ->
     resp_currency data = currency /\ res_currency r = currency).
Proof.
  unfold _parse_json. split.
  - intros Hne.
    assert (Hneq : String.eqb (resp_currency data) currency = false)
      by (apply String.eqb_neq; exact Hne).
    split.
    + intros r Hr. bind_inv Hr. bind_inv Hr. rewrite Hneq in Hr. discriminate.
    + intros [a Ha] [c Hc]. rewrite Ha, Hc. simpl. now rewrite Hneq.
  - intros r Hr. bind_inv Hr. bind_inv Hr.
    destruct (String.eqb (resp_currency data) currency) eqn:Heq; [|discriminate].
    apply String.eqb_eq in Heq. simpl in Hr.
    bind_inv Hr. bind_inv Hr. bind_inv Hr. injection Hr as <-. simpl. auto.
Qed.

(** *** Row names *)

Lemma row_tokens_PH (d hs : string) :
  has_char "-" d = false -> has_char " " d = false ->
  has_char "-" hs = false -> has_char " " hs = false ->
  row_tokens ("PH-" ++ d ++ "-" ++ hs) = ["PH"; d; hs].
Proof.
  intros Hd1 Hd2 Hh1 Hh2. unfold row_tokens.
  change ("PH-" ++ d ++ "-" ++ hs) with ("PH" ++ String "-" (d ++ String "-" hs)).
  rewrite (split_app "-" "PH") by reflexivity.
  rewrite (split_app "-" d) by assumption.
  rewrite (split_no_sep "-" hs) by assumption.
  change (PyStr.join " " ["PH"; d; hs]) with ("PH" ++ String " " (d ++ String " " hs)).
  rewrite (split_app " " "PH") by reflexivity.
  rewrite (split_app " " d) by assumption.
  now rewrite (split_no_sep " " hs).
Qed.

(** C2 (as amended). A name ["PH-<date>-<hour>"] whose date and hour tokens
    hold no ['-'] and no blank splits into the three tokens ["PH"], date,
    hour; the row starts at [_parse_dt] of the date joined by ['-'] to the
    hour minus one, which for an hour in 1..100 is written on two digits, and
    it ends one hour later. The name ["PH-2023-10-15-3"] splits into five
    tokens and its start is [_parse_dt "2023-09"]. *)
Theorem row_start_of_name (d hs : string) (h : Z) :
  has_char "-" d = false -> has_char " " d = false ->
  has_char "-" hs = false -> has_char " " hs = false ->
  PyStr.int hs = Return h ->
  let n := "PH-" ++ d ++ "-" ++ hs in
  row_tokens n = ["PH"; d; hs] /\
  row_start_arg (row_tokens n) = Return (d ++ "-" ++ PyStr.format_02 (h - 1)) /\
  (1 <= h <= 100 -> PyStr.format_02 (h - 1) = two_digits (h - 1)) /\
  (forall s e, row_times (row_tokens n) = Return (s, e) <->
     _parse_dt (d ++ "-" ++ PyStr.format_02 (h - 1)) = Return s /\
     PyDate.add s (hours 1) = Return e) /\
  (forall s e, row_times (row_tokens n) = Return (s, e) -> PyDate.sub e s = hours 1) /\
  row_tokens "PH-2023-10-15-3" = ["PH"; "2023"; "10"; "15"; "3"] /\
  row_start_arg (row_tokens "PH-2023-10-15-3") = Return "2023-09" /\
  row_times (row_tokens "PH-2023-10-15-3") =
    (do s <- _parse_dt "2023-09"; do e <- PyDate.add s (hours 1); Return (s, e)).
Proof.
  intros Hd1 Hd2 Hh1 Hh2 Hint n.
  assert (Htok : row_tokens n = ["PH"; d; hs])
    by (apply row_tokens_PH; assumption).
  assert (Harg : row_start_arg (row_tokens n)
                 = Return (d ++ "-" ++ PyStr.format_02 (h - 1))).
  { rewrite Htok. unfold row_start_arg, index. simpl. rewrite Hint. reflexivity. }
  assert (Htimes : forall s e, row_times (row_tokens n) = Return (s, e) <->
     _parse_dt (d ++ "-" ++ PyStr.format_02 (h - 1)) = Return s /\
     PyDate.add s (hours 1) = Return e).
  { intros s e. unfold row_times. rewrite Harg. cbn [bind]. split.
    - intros H. bind_inv H. bind_inv H. injection H as <- <-. auto.
    - intros [H1 H2]. rewrite H1. cbn [bind]. rewrite H2. reflexivity. }
  split; [exact Htok|]. split; [exact Harg|].
  split; [intros Hh; apply format_02_digits; lia|].
  split; [exact Htimes|]. split; [|repeat split].
  intros s e H. apply Htimes in H as [_ H]. unfold PyDate.add in H.
  destruct (_ && _); [|discriminate]. injection H as <-. unfold PyDate.sub. lia.
Qed.

(** *** One column, one row *)

Lemma lookup2_Some (areas_data : gmap string (gmap string (list PricePoint)))
    (a k : string) (points : list PricePoint) :
  lookup2 areas_data a k = Some points ->
  exists series, areas_data !! a = Some series /\ series !! k = Some points.
Proof. unfold lookup2. destruct (areas_data !! a); [eauto | discriminate]. Qed.

Lemma lookup2_insert areas_data (a0 a k : string) (series : gmap string (list PricePoint)) :
  lookup2 (<[a0 := series]> areas_data) a k =
  if decide (a0 = a) then series !! k else lookup2 areas_data a k.
Proof.
  unfold lookup2. rewrite lookup_insert. destruct (decide (a0 = a)); reflexivity.
Qed.

(** What a successful run of the column body has done. *)
Lemma column_step_inv columns areas r ts te areas_data c areas_data' :
  column_step columns areas r ts te areas_data c = Return areas_data' ->
  (columns <> [] /\ PyStr.mem (col_Name c) columns = false /\ areas_data' = areas_data) \/
  ((columns = [] \/ PyStr.mem (col_Name c) columns = true) /\
   exists a0 series,
     index areas 0 = Return a0 /\ areas_data !! a0 = Some series /\
     ((row_IsExtraRow r = true /\
       areas_data' = <[a0 := with_key series (col_Name c)]> areas_data) \/
      (row_IsExtraRow r = false /\
       exists points v,
         with_key series (col_Name c) !! col_Name c = Some points /\
         column_value c = Return v /\
         areas_data' =
           <[a0 := <[col_Name c :=
                       (points ++ [{| pp_start := ts; pp_end := te; pp_value := v |}])%list]>
                     (with_key series (col_Name c))]> areas_data))).
Proof.
  unfold column_step. intros H.
  destruct (negb (bool_decide (columns = [])) && negb (PyStr.mem (col_Name c) columns))
    eqn:Hskip.
  { left. injection H as <-. apply andb_true_iff in Hskip as [H1 H2].
    apply negb_true_iff in H1, H2. apply bool_decide_eq_false in H1. auto. }
  right. split.
  { apply andb_false_iff in Hskip as [Hs|Hs]; apply negb_false_iff in Hs.
    - left. now apply bool_decide_eq_true in Hs.
    - now right. }
  bind_inv H. rename x into a0, Hx into Ha0.
  bind_inv H. rename x into series, Hx into Hseries.
  apply getitem_Return in Hseries as Hget.
  exists a0, series. split; [assumption|]. split; [assumption|].
  bind_inv H. rename x into ad1, Hx into Had1.
  assert (Hinit : ad1 = <[a0 := with_key series (col_Name c)]> areas_data).
  { unfold with_key. destruct (series !! col_Name c) eqn:Hk.
    - injection Had1 as <-. now rewrite insert_id.
    - rewrite Ha0 in Had1. cbn [bind] in Had1. rewrite Hseries in Had1.
      now injection Had1 as <-. }
  clear Had1. destruct (row_IsExtraRow r).
  - left. split; [reflexivity|]. injection H as <-. assumption.
  - right. split; [reflexivity|].
    rewrite Ha0 in H. cbn [bind] in H.
    bind_inv H. apply getitem_Return in Hx.
    rewrite Hinit, lookup_insert_eq in Hx. injection Hx as <-.
    bind_inv H. rename x into points. apply getitem_Return in Hx.
    bind_inv H. rename x into v. injection H as <-.
    exists points, v. split; [assumption|]. split; [assumption|].
    rewrite Hinit, insert_insert_eq. reflexivity.
Qed.

Lemma lookup_with_key (series : gmap string (list PricePoint)) (name k : string) :
  with_key series name !! k =
  if decide (name = k) then Some (default [] (series !! name)) else series !! k.
Proof.
  unfold with_key. destruct (decide (name = k)) as [<-|Hne].
  - destruct (series !! name) eqn:Hk; simpl; [assumption | apply lookup_insert_eq].
  - destruct (series !! name); [reflexivity | now apply lookup_insert_ne].
Qed.

(** How one column changes what is stored under area [a] and key [k]: not at
    all, or a fresh empty list, or one more point at the end. *)
Lemma column_step_lookup2 columns areas r ts te areas_data c areas_data' :
  column_step columns areas r ts te areas_data c = Return areas_data' ->
  forall a k,
    lookup2 areas_data' a k = lookup2 areas_data a k \/
    (index areas 0 = Return a /\ k = col_Name c /\
     (columns = [] \/ PyStr.mem k columns = true) /\
     ((lookup2 areas_data a k = None /\ lookup2 areas_data' a k = Some []) \/
      (row_IsExtraRow r = false /\ exists v,
         lookup2 areas_data' a k =
         Some (default [] (lookup2 areas_data a k)
               ++ [{| pp_start := ts; pp_end := te; pp_value := v |}])%list))).
Proof.
  intros H a k. apply column_step_inv in H as [(_ & _ & ->)|(Hcol & a0 & series & Ha0 & Hs & H)].
  { now left. }
  assert (Hl2 : forall k', lookup2 areas_data a0 k' = series !! k').
  { intros k'. unfold lookup2. now rewrite Hs. }
  destruct H as [(Hex & ->)|(Hex & points & v & Hpts & _ & ->)];
    rewrite lookup2_insert; destruct (decide (a0 = a)) as [<-|Hne]; try (now left).
  - rewrite lookup_with_key, Hl2. destruct (decide (col_Name c = k)) as [<-|Hk]; [|now left].
    destruct (series !! col_Name c) eqn:Hk; simpl; [now left|].
    right. repeat split; auto.
  - rewrite lookup_insert. destruct (decide (col_Name c = k)) as [<-|Hk].
    + right. repeat split; auto. right. split; [assumption|]. exists v.
      rewrite lookup_with_key in Hpts. rewrite decide_True in Hpts by reflexivity.
      injection Hpts as <-. now rewrite Hl2.
    + rewrite lookup_with_key, decide_False by assumption. left. symmetry. apply Hl2.
Qed.

(** A column that passes the filter of line 63 has its key afterwards. *)
Lemma column_step_key columns areas r ts te areas_data c areas_data' a0 :
  column_step columns areas r ts te areas_data c = Return areas_data' ->
  index areas 0 = Return a0 ->
  columns = [] \/ PyStr.mem (col_Name c) columns = true ->
  is_Some (lookup2 areas_data' a0 (col_Name c)).
Proof.
  intros H Ha0 Hin.
  apply column_step_inv in H as [(Hne & Hmem & _)|(_ & a & series & Ha & Hs & H)].
  { destruct Hin; congruence. }
  assert (a = a0) as -> by congruence.
  destruct H as [(_ & ->)|(_ & points & v & _ & _ & ->)]; rewrite lookup2_insert, decide_True by reflexivity.
  - rewrite lookup_with_key, decide_True by reflexivity. eauto.
  - rewrite lookup_insert_eq. eauto.
Qed.

(** The outer dictionary keeps its keys. *)
Lemma column_step_dom columns areas r ts te areas_data c areas_data' :
  column_step columns areas r ts te areas_data c = Return areas_data' ->
  dom areas_data' = dom areas_data.
Proof.
  intros H.
  apply column_step_inv in H as [(_ & _ & ->)|(_ & a & series & Ha & Hs & H)]; [reflexivity|].
  assert (Hin : a ∈ dom areas_data) by (apply elem_of_dom; eauto).
  destruct H as [(_ & ->)|(_ & points & v & _ & _ & ->)]; rewrite dom_insert_L;
    apply subseteq_union_1_L, singleton_subseteq_l, Hin.
Qed.

Lemma split_nonempty (sep : ascii) (s : string) : PyStr.split sep s <> [].
Proof.
  destruct s as [|c s]; simpl; [discriminate|].
  destruct (Ascii.eqb c sep); [discriminate|].
  destruct (PyStr.split sep s); discriminate.
Qed.

Lemma row_step_skipped columns areas areas_data r :
  skipped r -> row_step columns areas areas_data r = Return areas_data.
Proof.
  unfold row_step. intros [->|(n & -> & Hhd)]; [reflexivity|].
  destruct (row_tokens n) as [|t ts] eqn:Htok.
  { exfalso. revert Htok. apply split_nonempty. }
  unfold index. simpl. destruct (String.eqb t "PH") eqn:Ht; [|reflexivity].
  apply String.eqb_eq in Ht. subst t. now elim Hhd.
Qed.

(** What a successful run of the row body has done. *)
Lemma row_step_inv columns areas areas_data r areas_data' :
  row_step columns areas areas_data r = Return areas_data' ->
  (skipped r /\ areas_data' = areas_data) \/
  (retained r /\ exists n ts te,
     row_Name r = Some n /\ row_times (row_tokens n) = Return (ts, te) /\
     for_each (column_step columns areas r ts te) (row_Columns r) areas_data
       = Return areas_data').
Proof.
  intros H. destruct (row_Name r) as [n|] eqn:Hn.
  2:{ left. unfold row_step in H. rewrite Hn in H. injection H as <-.
      split; [now left | reflexivity]. }
  destruct (decide (head (row_tokens n) = Some "PH")) as [Hhd|Hhd].
  - right. split; [exists n; auto|]. unfold row_step in H. rewrite Hn in H.
    destruct (row_tokens n) as [|t ts] eqn:Htok; [discriminate|].
    injection Hhd as ->. unfold index in H. simpl in H.
    bind_inv H. destruct x as [ts' te']. exists n, ts', te'. rewrite Htok. auto.
  - left. assert (Hs : skipped r) by (right; eauto).
    rewrite (row_step_skipped _ _ _ _ Hs) in H. injection H as <-. auto.
Qed.

(** *** Whole rows and whole documents *)

Lemma grows_by_refl P old : grows_by P old old.
Proof. exists []. now left. Qed.

Lemma grows_by_trans P o1 o2 o3 :
  grows_by P o1 o2 -> grows_by P o2 o3 -> grows_by P o1 o3.
Proof.
  intros [a1 [[-> _]|[-> H1]]] H23; [assumption|].
  destruct H23 as [a2 [[-> _]|[-> H2]]].
  - exists a1. now right.
  - exists (a1 ++ a2)%list. right. simpl. rewrite app_assoc. split; [reflexivity|].
    apply Forall_app. auto.
Qed.

Lemma column_step_grows columns areas r ts te areas_data c areas_data' (P : PricePoint -> Prop) :
  (row_IsExtraRow r = false -> forall v, P {| pp_start := ts; pp_end := te; pp_value := v |}) ->
  column_step columns areas r ts te areas_data c = Return areas_data' ->
  forall a k, grows_by P (lookup2 areas_data a k) (lookup2 areas_data' a k).
Proof.
  intros HP H a k.
  destruct (column_step_lookup2 _ _ _ _ _ _ _ _ H a k)
    as [->|(_ & _ & _ & [(Hold & ->)|(Hex & v & ->)])].
  - apply grows_by_refl.
  - exists []. right. rewrite Hold. split; [reflexivity | constructor].
  - eexists. right. split; [reflexivity|]. repeat constructor. now apply HP.
Qed.

Lemma row_step_grows columns areas areas_data r areas_data' :
  row_step columns areas areas_data r = Return areas_data' ->
  forall a k,
    grows_by (fun p => row_IsExtraRow r = false /\
                       PyDate.sub (pp_end p) (pp_start p) = hours 1)
             (lookup2 areas_data a k) (lookup2 areas_data' a k).
Proof.
  intros H a k.
  apply row_step_inv in H as [(_ & ->)|(_ & n & ts & te & _ & Ht & H)].
  { apply grows_by_refl. }
  assert (Hhour : PyDate.sub te ts = hours 1).
  { unfold row_times in Ht. bind_inv Ht. bind_inv Ht. bind_inv Ht.
    injection Ht as <- <-. unfold PyDate.add in Hx1.
    destruct (_ && _); [|discriminate]. injection Hx1 as <-. unfold PyDate.sub. lia. }
  revert H. apply (for_each_preserves (fun ad => grows_by _ (lookup2 areas_data a k) (lookup2 ad a k))).
  - intros s c s' Hs Hstep. eapply grows_by_trans; [exact Hs|].
    eapply column_step_grows; [|exact Hstep]. simpl. auto.
  - apply grows_by_refl.
Qed.

Lemma row_step_dom columns areas areas_data r areas_data' :
  row_step columns areas areas_data r = Return areas_data' ->
  dom areas_data' = dom areas_data.
Proof.
  intros H. apply row_step_inv in H as [(_ & ->)|(_ & n & ts & te & _ & _ & H)]; [reflexivity|].
  revert H. apply (for_each_preserves (fun ad => dom ad = dom areas_data)); [|reflexivity].
  intros s c s' Hs Hstep. rewrite <- Hs. eapply column_step_dom. exact Hstep.
Qed.

(** The pieces of a successful [_parse_json]. *)
Lemma parse_json_inv (data : Response) (columns areas : PySeq) (r : FetchResult) :
  _parse_json data columns areas = Return r ->
  exists a0 rest cols,
    as_list areas = Return (a0 :: rest) /\ as_list columns = Return cols /\
    for_each (row_step cols (a0 :: rest)) (Rows (resp_data data)) {[ a0 := ∅ ]}
      = Return (res_areas r).
Proof.
  unfold _parse_json. intros H. bind_inv H. bind_inv H.
  destruct (negb _); [discriminate|]. bind_inv H. bind_inv H.
  apply index_0 in Hx2 as [rest ->]. bind_inv H. injection H as <-. simpl.
  exists x2, rest, x0. auto.
Qed.

Lemma parse_json_dom (data : Response) (columns areas : PySeq) (r : FetchResult)
    (a0 : string) (rest : list string) :
  as_list areas = Return (a0 :: rest) ->
  _parse_json data columns areas = Return r ->
  dom (res_areas r) = {[ a0 ]}.
Proof.
  intros Ha H. apply parse_json_inv in H as (a & rest' & cols & Ha' & _ & H).
  rewrite Ha in Ha'. injection Ha' as <- <-.
  revert H. apply (for_each_preserves (fun ad => dom ad = {[ a0 ]})).
  - intros s x s' Hs Hstep. rewrite <- Hs. eapply row_step_dom. exact Hstep.
  - apply dom_singleton_L.
Qed.

(** C4. A row whose [Name] is null, or whose first token is not ["PH"],
    leaves the area map as it found it; and a document gives the same result
    with or without such a row. *)
Theorem skipped_row_emits_nothing (r : RawRow) :
  (row_Name r = None \/
   exists n, row_Name r = Some n /\ head (row_tokens n) <> Some "PH") ->
  (forall columns areas areas_data,
     row_step columns areas areas_data r = Return areas_data) /\
  (forall cur upd pre post columns areas,
     _parse_json {| resp_currency := cur;
                    resp_data := {| DateUpdated := upd;
                                    Rows := (pre ++ r :: post)%list |} |} columns areas =
     _parse_json {| resp_currency := cur;
                    resp_data := {| DateUpdated := upd;
                                    Rows := (pre ++ post)%list |} |} columns areas).
Proof.
  intros Hskip.
  assert (Hrow : forall columns areas areas_data,
             row_step columns areas areas_data r = Return areas_data)
    by (intros; now apply row_step_skipped).
  split; [exact Hrow|].
  intros cur upd pre post columns areas. unfold _parse_json. simpl.
  destruct (as_list areas) as [al|]; [|reflexivity].
  destruct (as_list columns) as [cl|]; [|reflexivity]. simpl.
  destruct (negb _); [reflexivity|].
  destruct (_parse_dt upd); [|reflexivity]. simpl.
  destruct (index al 0); [|reflexivity]. simpl.
  now rewrite (for_each_skip (row_step cl al) r (Hrow cl al)).
Qed.

(** C5. Every point of a returned result ends exactly one hour after it
    starts. *)
Theorem price_points_last_one_hour (data : Response) (columns areas : PySeq)
    (r : FetchResult) :
  _parse_json data columns areas = Return r ->
  forall a series k points p,
    res_areas r !! a = Some series -> series !! k = Some points -> In p points ->
    PyDate.sub (pp_end p) (pp_start p) = hours 1.
Proof.
  intros H a series k points p Ha Hk Hp.
  apply parse_json_inv in H as (a0 & rest & cols & _ & _ & H).
  assert (Hinv : forall pts, lookup2 (res_areas r) a k = Some pts ->
                 Forall (fun p => PyDate.sub (pp_end p) (pp_start p) = hours 1) pts).
  { revert H.
    apply (for_each_preserves (fun ad => forall pts, lookup2 ad a k = Some pts ->
             Forall (fun p => PyDate.sub (pp_end p) (pp_start p) = hours 1) pts)).
    - intros s x s' Hs Hstep pts Hpts.
      destruct (row_step_grows _ _ _ _ _ Hstep a k) as [added [[Heq _]|[Heq Hall]]].
      + apply Hs. congruence.
      + rewrite Hpts in Heq. injection Heq as ->. apply Forall_app. split.
        * destruct (lookup2 s a k) eqn:Hold; simpl; [now apply Hs | constructor].
        * eapply Forall_impl; [exact Hall|]. simpl. tauto.
    - intros pts Hpts. unfold lookup2 in Hpts.
      destruct (decide (a0 = a)) as [->|Hne].
      + rewrite lookup_singleton_eq in Hpts. now rewrite lookup_empty in Hpts.
      + now rewrite lookup_singleton_ne in Hpts. }
  specialize (Hinv points). unfold lookup2 in Hinv. rewrite Ha in Hinv.
  rewrite Forall_forall in Hinv. apply (Hinv Hk). now apply list_elem_of_In.
Qed.

(** C7. A row with [IsExtraRow] set appends no point: under every area and
    key the list is what it was, or a key that was absent now holds the empty
    list. *)
Theorem extra_row_adds_no_point columns areas areas_data (r : RawRow) areas_data' :
  row_IsExtraRow r = true ->
  row_step columns areas areas_data r = Return areas_data' ->
  forall a k,
    lookup2 areas_data' a k = lookup2 areas_data a k \/
    (lookup2 areas_data a k = None /\ lookup2 areas_data' a k = Some []).
Proof.
  intros Hex H a k.
  destruct (row_step_grows _ _ _ _ _ H a k) as [added [[Heq _]|[Heq Hall]]].
  { now left. }
  destruct added as [|p added].
  - rewrite app_nil_r in Heq. destruct (lookup2 areas_data a k) eqn:Hold; simpl in Heq.
    + now left.
    + right. auto.
  - apply Forall_cons in Hall as [[Hno _] _]. congruence.
Qed.

(** C8. With a non-empty [areas] sequence the returned map has the single
    key [areas[0]]; nothing is stored under any other area. *)
Theorem single_area_key (data : Response) (columns areas : PySeq) (r : FetchResult)
    (a0 : string) (rest : list string) :
  as_list areas = Return (a0 :: rest) ->
  _parse_json data columns areas = Return r ->
  dom (res_areas r) = {[ a0 ]} /\
  (exists series, res_areas r !! a0 = Some series) /\
  (forall a, a <> a0 -> res_areas r !! a = None).
Proof.
  intros Ha H. pose proof (parse_json_dom _ _ _ _ _ _ Ha H) as Hdom.
  split; [exact Hdom|]. split.
  - apply (elem_of_dom (res_areas r) a0). rewrite Hdom. set_solver.
  - intros a Hne. apply (not_elem_of_dom (res_areas r) a). rewrite Hdom. set_solver.
Qed.

(** C10. When [areas] is a plain string, the single key of the returned map
    is the one-character string made of its first character. *)
Theorem string_areas_first_char (data : Response) (columns : PySeq) (c : ascii)
    (s : string) (r : FetchResult) :
  _parse_json data columns (SeqStr (String c s)) = Return r ->
  as_list (SeqStr (String c s)) = Return (String c EmptyString :: PyStr.chars s) /\
  dom (res_areas r) = {[ String c EmptyString ]} /\
  (s <> EmptyString -> res_areas r !! String c s = None).
Proof.
  intros H. split; [reflexivity|].
  assert (Hdom : dom (res_areas r) = {[ String c EmptyString ]})
    by (eapply parse_json_dom; [|exact H]; reflexivity).
  split; [exact Hdom|].
  intros Hs. apply (not_elem_of_dom (res_areas r)). rewrite Hdom.
  intros Hin. apply elem_of_singleton in Hin. injection Hin as ->. now elim Hs.
Qed.

(** *** Which keys a series map gets *)

Lemma grows_by_is_Some P old new :
  grows_by P old new -> is_Some old -> is_Some new.
Proof. intros [added [[-> _]|[-> _]]] H; eauto. Qed.

Lemma row_step_keeps_key columns areas areas_data r areas_data' a k :
  row_step columns areas areas_data r = Return areas_data' ->
  is_Some (lookup2 areas_data a k) -> is_Some (lookup2 areas_data' a k).
Proof. intros H. eapply grows_by_is_Some. apply (row_step_grows _ _ _ _ _ H). Qed.


(** With a filter, only requested names become keys. *)
Lemma row_step_keys_within columns areas areas_data r areas_data' :
  columns <> [] ->
  row_step columns areas areas_data r = Return areas_data' ->
  (forall a k, is_Some (lookup2 areas_data a k) -> PyStr.mem k columns = true) ->
  forall a k, is_Some (lookup2 areas_data' a k) -> PyStr.mem k columns = true.
Proof.
  intros Hne H.
  apply row_step_inv in H as [(_ & ->)|(_ & n & ts & te & _ & _ & H)]; [auto|].
  intros Hinit. revert H.
  apply (for_each_preserves
           (fun ad => forall a k, is_Some (lookup2 ad a k) -> PyStr.mem k columns = true));
    [|exact Hinit].
  intros s c s' Hs Hstep a k Hk.
  destruct (column_step_lookup2 _ _ _ _ _ _ _ _ Hstep a k)
    as [Heq|(_ & _ & [Hnil|Hmem] & _)].
  - apply (Hs a). now rewrite <- Heq.
  - contradiction.
  - exact Hmem.
Qed.

Lemma lookup2_initial (a0 a k : string) :
  lookup2 ({[ a0 := ∅ ]} : gmap string (gmap string (list PricePoint))) a k = None.
Proof.
  unfold lookup2. destruct (decide (a0 = a)) as [->|Hne].
  - rewrite lookup_singleton_eq. apply lookup_empty.
  - now rewrite lookup_singleton_ne.
Qed.


End ParseProperties.

(** ** The calendar *)

Lemma fromordinal_unfold (n : Z) :
  let n0 := n - 1 in
  let n400 := n0 / DI400Y in
  let r1 := n0 mod DI400Y in
  let n100 := r1 / DI100Y in
  let r2 := r1 mod DI100Y in
  let n4 := r2 / DI4Y in
  let r3 := r2 mod DI4Y in
  let n1 := r3 / 365 in
  let r4 := r3 mod 365 in
  let y := n400 * 400 + 1 + n100 * 100 + n4 * 4 + n1 in
  fromordinal n =
  if (n1 =? 4) || (n100 =? 4) then {| year := y - 1; month := 12; day := 31 |}
  else
    let md := month_day ((n1 =? 3) && (negb (n4 =? 24) || (n100 =? 3))) r4 in
    {| year := y; month := fst md; day := snd md |}.
Proof.
  cbv zeta. unfold fromordinal, month_day. cbv zeta.
  destruct (_ || _); [reflexivity|]. destruct (_ <? _); reflexivity.
Qed.

Lemma days_before_year_split (a b c e : Z) :
  0 <= b <= 3 -> 0 <= c <= 24 -> 0 <= e <= 3 ->
  days_before_year (400 * a + 100 * b + 4 * c + e + 1)
  = 146097 * a + 36524 * b + 1461 * c + 365 * e.
Proof.
  intros Hb Hc He. unfold days_before_year. cbv zeta.
  replace (400 * a + 100 * b + 4 * c + e + 1 - 1) with (400 * a + 100 * b + 4 * c + e)
    by lia.
  Z.div_mod_to_equations. lia.
Qed.

Lemma is_leap_split (a b c e : Z) :
  0 <= b <= 3 -> 0 <= c <= 24 -> 0 <= e <= 3 ->
  is_leap (400 * a + 100 * b + 4 * c + e + 1)
  = (e =? 3) && (negb (c =? 24) || (b =? 3)).
Proof.
  intros Hb Hc He. unfold is_leap.
  destruct (Z.eqb_spec e 3), (Z.eqb_spec c 24), (Z.eqb_spec b 3); cbn [andb orb negb];
    repeat match goal with
           | |- context [?x mod ?y =? 0] => destruct (Z.eqb_spec (x mod y) 0)
           end;
    cbn [andb orb negb]; try reflexivity; exfalso; Z.div_mod_to_equations; lia.
Qed.

Lemma month_day_spec (leapyear : bool) (n : Z) :
  0 <= n < 365 ->
  let md := month_day leapyear n in
  1 <= fst md <= 12 /\ 1 <= snd md <= dim leapyear (fst md) /\
  dbm leapyear (fst md) + snd md = n + 1.
Proof.
  intros Hn md.
  assert (H : month_day_ok leapyear n = true).
  { destruct leapyear;
      [apply (Z_range_check (month_day_ok true) 0 365)
      |apply (Z_range_check (month_day_ok false) 0 365)];
      solve [vm_compute; reflexivity | lia]. }
  unfold month_day_ok in H. fold md in H.
  repeat (apply andb_true_iff in H as [H ?]). lia.
Qed.

(** [fromordinal] lands on a calendar date, the one with that ordinal. *)
Lemma fromordinal_spec (n : Z) :
  1 <= n <= MAXORDINAL ->
  valid (fromordinal n) /\ toordinal (fromordinal n) = n.
Proof.
  intros Hn. rewrite fromordinal_unfold. cbv zeta.
  unfold MAXORDINAL, DI400Y, DI100Y, DI4Y in *.
  pose proof (Z.div_mod (n - 1) 146097 ltac:(lia)) as E1.
  pose proof (Z.mod_pos_bound (n - 1) 146097 ltac:(lia)) as B1.
  set (n400 := (n - 1) / 146097) in *. set (r1 := (n - 1) mod 146097) in *.
  pose proof (Z.div_mod r1 36524 ltac:(lia)) as E2.
  pose proof (Z.mod_pos_bound r1 36524 ltac:(lia)) as B2.
  set (n100 := r1 / 36524) in *. set (r2 := r1 mod 36524) in *.
  pose proof (Z.div_mod r2 1461 ltac:(lia)) as E3.
  pose proof (Z.mod_pos_bound r2 1461 ltac:(lia)) as B3.
  set (n4 := r2 / 1461) in *. set (r3 := r2 mod 1461) in *.
  pose proof (Z.div_mod r3 365 ltac:(lia)) as E4.
  pose proof (Z.mod_pos_bound r3 365 ltac:(lia)) as B4.
  set (n1 := r3 / 365) in *. set (r4 := r3 mod 365) in *.
  assert (H400 : 0 <= n400 <= 24) by lia.
  assert (H100 : 0 <= n100 <= 4) by lia.
  assert (H4 : 0 <= n4 <= 24) by lia.
  assert (H1 : 0 <= n1 <= 4) by lia.
  destruct (Z.eqb_spec n100 4) as [E100|N100].
  { (* the last day of a 400-year cycle *)
    rewrite orb_true_r.
    replace (n400 * 400 + 1 + n100 * 100 + n4 * 4 + n1 - 1)
      with (400 * n400 + 100 * 3 + 4 * 24 + 3 + 1) by lia.
    unfold valid, toordinal, days_in_month, days_before_month. cbn [year month day].
    rewrite days_before_year_split, is_leap_split by lia. simpl. lia. }
  destruct (Z.eqb_spec n1 4) as [E1'|N1].
  { (* the last day of a leap year *)
    cbn [orb].
    replace (n400 * 400 + 1 + n100 * 100 + n4 * 4 + n1 - 1)
      with (400 * n400 + 100 * n100 + 4 * n4 + 3 + 1) by lia.
    unfold valid, toordinal, days_in_month, days_before_month. cbn [year month day].
    rewrite days_before_year_split, is_leap_split by lia.
    assert (Hn4 : (n4 =? 24) = false) by (apply Z.eqb_neq; lia).
    rewrite Hn4. simpl. lia. }
  cbn [orb].
  replace (n400 * 400 + 1 + n100 * 100 + n4 * 4 + n1)
    with (400 * n400 + 100 * n100 + 4 * n4 + n1 + 1) by lia.
  destruct (month_day_spec ((n1 =? 3) && (negb (n4 =? 24) || (n100 =? 3))) r4 ltac:(lia))
    as (Hm & Hd & Hsum).
  unfold valid, toordinal. cbn [year month day].
  unfold days_in_month, days_before_month.
  rewrite days_before_year_split, is_leap_split by lia.
  unfold dim, dbm in Hd, Hsum. lia.
Qed.

Lemma month_length_sum (leapyear : bool) (m : Z) :
  1 <= m <= 12 ->
  0 <= dbm leapyear m /\ dbm leapyear m + dim leapyear m <= 365 + (if leapyear then 1 else 0).
Proof.
  intros Hm.
  assert (H : ((0 <=? dbm leapyear m) &&
               (dbm leapyear m + dim leapyear m <=? 365 + (if leapyear then 1 else 0))) = true).
  { destruct leapyear;
      [apply (Z_range_check (fun m => (0 <=? dbm true m) &&
                                      (dbm true m + dim true m <=? 365 + 1)) 1 13)
      |apply (Z_range_check (fun m => (0 <=? dbm false m) &&
                                      (dbm false m + dim false m <=? 365 + 0)) 1 13)];
      solve [vm_compute; reflexivity | lia]. }
  apply andb_true_iff in H as [H1 H2]. lia.
Qed.

(** The ordinal of a calendar date is in range. *)
Lemma toordinal_range (d : date) : valid d -> 1 <= toordinal d <= MAXORDINAL.
Proof.
  intros (Hy & Hm & Hd). unfold toordinal, MAXORDINAL.
  pose proof (month_length_sum (is_leap (year d)) (month d) Hm) as [Hb Hs].
  change (days_in_month (year d) (month d)) with (dim (is_leap (year d)) (month d)) in Hd.
  change (days_before_month (year d) (month d)) with (dbm (is_leap (year d)) (month d)).
  destruct (Z.eq_dec (year d) 9999) as [E|N].
  - rewrite E in *. change (is_leap 9999) with false in *.
    change (days_before_year 9999) with 3651694.
    change (if false then 1 else 0) with 0 in Hs. lia.
  - assert (0 <= days_before_year (year d) <= 3651329).
    { unfold days_before_year. cbv zeta. Z.div_mod_to_equations. lia. }
    destruct (is_leap (year d)); lia.
Qed.

(** ** Requests *)

Lemma days_in_month_le_31 (y m : Z) : days_in_month y m <= 31.
Proof.
  unfold days_in_month. destruct (_ && _); [lia|].
  unfold DAYS_IN_MONTH. destruct m as [|p|p]; try lia.
  destruct p as [[[[?|?|]|[?|?|]|]|[[?|?|]|[?|?|]|]|]|[[[?|?|]|[?|?|]|]|[[?|?|]|[?|?|]|]|]|]; lia.
Qed.

Lemma strftime_dmY_shape (d : date) :
  valid d -> 1000 <= year d -> strftime_dmY d = DD_MM_YYYY d.
Proof.
  intros (Hy & Hm & Hd) Hyear. pose proof (days_in_month_le_31 (year d) (month d)).
  unfold strftime_dmY, DD_MM_YYYY.
  rewrite !zfill_2_digits, of_int_4_digits by lia. reflexivity.
Qed.

(** The day before a date of the year 1001 or later is of the year 1000 or
    later. *)
Lemma day_before_year (y t : date) :
  valid y -> valid t -> toordinal y = toordinal t - 1 -> 1000 < year t ->
  1000 <= year y.
Proof.
  intros (Hyy & Hym & Hyd) (Hty & Htm & Htd) Hord Hyear.
  pose proof (month_length_sum (is_leap (year y)) (month y) Hym) as [_ Hsum].
  pose proof (month_length_sum (is_leap (year t)) (month t) Htm) as [Hpos _].
  change (days_in_month (year y) (month y)) with (dim (is_leap (year y)) (month y)) in Hyd.
  unfold toordinal in Hord.
  change (days_before_month (year y) (month y)) with (dbm (is_leap (year y)) (month y))
    in Hord.
  change (days_before_month (year t) (month t)) with (dbm (is_leap (year t)) (month t))
    in Hord.
  destruct (Z_lt_le_dec (year y) 1000) as [Hlow|Hok]; [exfalso|exact Hok].
  assert (Hy999 : days_before_year (year y) <= 364512).
  { unfold days_before_year. cbv zeta. Z.div_mod_to_equations. lia. }
  assert (Ht1001 : 365242 <= days_before_year (year t)).
  { unfold days_before_year. cbv zeta. Z.div_mod_to_equations. lia. }
  destruct (is_leap (year y)); lia.
Qed.

Lemma append_empty_r (s : string) : s ++ "" = s.
Proof.
  induction s as [|c s IH]; [reflexivity|].
  change (String c (s ++ "") = String c s). now rewrite IH.
Qed.

Lemma join_empty_sep (l : list string) : PyStr.join "" l = concatenated l.
Proof.
  induction l as [|x l IH]; [reflexivity|].
  change (concatenated (x :: l)) with (x ++ concatenated l). rewrite <- IH.
  destruct l as [|y l]; simpl; [now rewrite append_empty_r | reflexivity].
Qed.

Section FetchProperties.

Context {self : Base} {world : World}.

(** [fetch] step by step: the end date, the request, the answer, the parse. *)
Lemma fetch_unfold (data_type : Z) (columns : PySeq) (end_date : EndDateArg)
    (areas : PySeq) (log : list Request) :
  fetch data_type columns end_date areas log =
  match resolve_end_date end_date with
  | Raise e => (Raise e, log)
  | Return d =>
      match build_request data_type areas d with
      | Raise e => (Raise e, log)
      | Return req =>
          match requests_get_json req with
          | Raise e => (Raise e, (log ++ [req])%list)
          | Return data => (_parse_json data columns areas, (log ++ [req])%list)
          end
      end
  end.
Proof.
  unfold fetch, _fetch_json, io_bind, io_lift, requests_get.
  destruct (resolve_end_date end_date) as [d|e]; [|reflexivity].
  destruct (build_request data_type areas d) as [req|e]; [|reflexivity].
  destruct (requests_get_json req) as [data|e]; [|reflexivity].
  destruct (_parse_json data columns areas); reflexivity.
Qed.

Lemma build_request_Return (data_type : Z) (areas : PySeq) (d : date) (req : Request) :
  build_request data_type areas d = Return req ->
  exists joined,
    join_seq areas = Return joined /\
    req = {| req_url := API_URL data_type;
             req_params := [("currency", currency); ("endDate", strftime_dmY d);
                            ("entityName", joined)];
             req_timeout := timeout |}.
Proof.
  unfold build_request. intros H. bind_inv H. injection H as <-. eauto.
Qed.

(** C1. Whatever the response document, when its declared currency differs
    from the configured one neither [_parse_json] nor [fetch] returns a
    result, and with [areas] and [columns] that are sequences what they raise
    is [CurrencyMismatch]; when they do return, the result carries the
    configured currency, which is also the declared one. *)
Theorem currency_checked (data : Response) (columns areas : PySeq) :
  (resp_currency data <> currency ->
     (forall r, _parse_json data columns areas <> Return r) /\
     (returns (as_list areas) -> returns (as_list columns) ->
      _parse_json data columns areas = Raise CurrencyMismatch) /\
     (forall data_type end_date log d req,
        resolve_end_date end_date = Return d ->
        build_request data_type areas d = Return req ->
        requests_get_json req = Return data ->
        returns (as_list columns) ->
        fetch data_type columns end_date areas log
        = (Raise CurrencyMismatch, (log ++ [req])%list))) /\
  (forall r, _parse_json data columns areas = Return r ->
     resp_currency data = currency /\ res_currency r = currency) /\
  (forall data_type end_date log r log',
     fetch data_type columns end_date areas log = (Return r, log') ->
     res_currency r = currency).
Proof.
  split; [|split].
  - intros Hne. destruct (parse_json_currency data columns areas) as [Hdiff _].
    destruct (Hdiff Hne) as [Hno Hraise]. split; [exact Hno|]. split; [exact Hraise|].
    intros data_type end_date log d req Hd Hreq Hget Hcols.
    rewrite fetch_unfold, Hd, Hreq, Hget. f_equal.
    destruct (parse_json_currency data columns areas) as [Hdiff' _].
    apply (Hdiff' Hne); [|exact Hcols].
    apply build_request_Return in Hreq as (joined & Hj & _).
    destruct areas; simpl in *; try discriminate; eexists; reflexivity.
  - apply parse_json_currency.
  - intros data_type end_date log r log' H. rewrite fetch_unfold in H.
    destruct (resolve_end_date end_date) as [d|]; [|discriminate].
    destruct (build_request data_type areas d) as [req|]; [|discriminate].
    destruct (requests_get_json req) as [data'|]; [|discriminate].
    injection H as H _.
    now apply (parse_json_currency data' columns areas) in H.
Qed.

(** C3 (the code at [areas=None]). [fetch] called without [areas] never
    returns and sends no request: joining the areas raises [TypeError] as
    soon as the end date is settled; [hourly] with no argument at all does
    the same. *)
Theorem fetch_without_areas (data_type : Z) (columns : PySeq) (end_date : EndDateArg)
    (log : list Request) :
  (forall r log', fetch data_type columns end_date SeqNone log <> (Return r, log')) /\
  snd (fetch data_type columns end_date SeqNone log) = log /\
  (forall d, resolve_end_date end_date = Return d ->
     fetch data_type columns end_date SeqNone log = (Raise TypeError, log)) /\
  (forall r log', hourly end_date SeqNone columns log <> (Return r, log')).
Proof.
  assert (H : forall cols,
             fetch data_type cols end_date SeqNone log =
             match resolve_end_date end_date with
             | Raise e => (Raise e, log)
             | Return _ => (Raise TypeError, log)
             end).
  { intros cols. rewrite fetch_unfold.
    destruct (resolve_end_date end_date); reflexivity. }
  split; [|split; [|split]].
  - intros r log'. rewrite H. destruct (resolve_end_date end_date); discriminate.
  - rewrite H. destruct (resolve_end_date end_date); reflexivity.
  - intros d Hd. now rewrite H, Hd.
  - intros r log'. unfold hourly. rewrite fetch_unfold.
    destruct (resolve_end_date end_date); discriminate.
Qed.

(** C9. Given the date [d] that [end_date] stands for and the sequence [l]
    of area codes, [_fetch_json] sends exactly one request, to the page of
    [data_type], whose [endDate] is [d] printed by [strftime], which for a
    calendar date of the year 1000 or later reads [DD-MM-YYYY], and whose
    [entityName] is the codes put end to end; an omitted [end_date] stands
    for the calendar date just before today, which reads [DD-MM-YYYY] when
    today is of the year 1001 or later. *)
Theorem fetch_json_request (data_type : Z) (areas : PySeq) (end_date : EndDateArg)
    (log : list Request) (d : date) (l : list string) :
  resolve_end_date end_date = Return d ->
  as_list areas = Return l ->
  let req := {| req_url := API_URL data_type;
                req_params := [("currency", currency);
                               ("endDate", strftime_dmY d);
                               ("entityName", concatenated l)];
                req_timeout := timeout |} in
  _fetch_json data_type areas end_date log
    = (requests_get_json req, (log ++ [req])%list) /\
  (valid d -> 1000 <= year d -> strftime_dmY d = DD_MM_YYYY d) /\
  (forall t, end_date = EndDateTime t -> 0 <= t < MAXORDINAL * US_PER_DAY -> valid d) /\
  (valid today -> toordinal today <> 1 ->
   exists y, resolve_end_date EndNone = Return y /\ valid y /\
             toordinal y = toordinal today - 1 /\
             (1000 < year today -> strftime_dmY y = DD_MM_YYYY y)).
Proof.
  intros Hd Hareas req.
  assert (Hjoin : join_seq areas = Return (concatenated l)).
  { destruct areas; simpl in Hareas; try discriminate; injection Hareas as <-;
      simpl; now rewrite join_empty_sep. }
  split; [|split; [|split]].
  - unfold _fetch_json, io_bind, io_lift, requests_get, build_request.
    rewrite Hd, Hjoin. reflexivity.
  - apply strftime_dmY_shape.
  - intros t -> Ht. injection Hd as <-. unfold date_of.
    apply fromordinal_spec. unfold MAXORDINAL, US_PER_DAY in *.
    Z.div_mod_to_equations. lia.
  - intros Hvalid Hmin. pose proof (toordinal_range today Hvalid) as Hrange.
    exists (fromordinal (toordinal today - 1)).
    destruct (fromordinal_spec (toordinal today - 1)) as [Hv Ho]; [lia|].
    split; [|split; [exact Hv|split; [exact Ho|]]].
    2:{ intros Hyear. apply strftime_dmY_shape; [exact Hv|].
        now apply (day_before_year _ today). }
    simpl. unfold date_sub, date_add, days, US_PER_DAY.
    replace (- (1 * 86400000000 / 86400000000) * 86400000000 / 86400000000) with (-1)
      by reflexivity.
    replace (toordinal today + -1) with (toordinal today - 1) by lia.
    destruct (andb_true_iff (0 <? toordinal today - 1) (toordinal today - 1 <=? MAXORDINAL))
      as [_ Hand].
    rewrite Hand; [reflexivity|]. split; [apply Z.ltb_lt | apply Z.leb_le]; lia.
Qed.

End FetchProperties.

(** * The properties at work on the sample fetcher *)

(** C2, as the specification words it: the name ["PH-2023-10-15-3"] does not
    split into ["PH"], ["2023-10-15"], ["3"], and what is parsed for it is
    not ["2023-10-15-02"]. *)
Lemma dashed_date_name_splits_in_five :
  row_tokens "PH-2023-10-15-3" <> ["PH"; "2023-10-15"; "3"] /\
  row_start_arg (row_tokens "PH-2023-10-15-3") <> Return "2023-10-15-02".
Proof. split; vm_compute; discriminate. Qed.

(** C2 on the name ["PH-20231015-03"]: the third hour of the day starts at
    02:00 and ends at 03:00. *)
Lemma row_start_of_name_witness :
  row_tokens "PH-20231015-03" = ["PH"; "20231015"; "03"] /\
  row_start_arg (row_tokens "PH-20231015-03") = Return "20231015-02" /\
  @row_times Sample.base (row_tokens "PH-20231015-03")
  = Return (63832932000000000, 63832935600000000).
Proof.
  destruct (@row_start_of_name Sample.base "20231015" "03" 3
              eq_refl eq_refl eq_refl eq_refl eq_refl)
    as (Htok & Harg & _ & Htimes & _).
  split; [exact Htok|]. split; [exact Harg|].
  apply Htimes. split; reflexivity.
Defined.

(** C1 on an answer in SEK to a fetcher configured for EUR. *)
Lemma currency_checked_witness :
  @fetch Sample.base (Sample.world_in "SEK") HOURLY (SeqList []) EndNone (SeqList ["FI"]) []
  = (Raise CurrencyMismatch, [Sample.request "29-02-2024" "FI"]) /\
  @_parse_json Sample.base (Sample.response_in "SEK") (SeqList []) (SeqList ["FI"])
  = Raise CurrencyMismatch.
Proof.
  destruct (@currency_checked Sample.base (Sample.world_in "SEK")
              (Sample.response_in "SEK") (SeqList []) (SeqList ["FI"]))
    as [Hdiff _].
  destruct Hdiff as (_ & Hparse & Hfetch); [vm_compute; discriminate|].
  assert (Hd : @resolve_end_date Sample.base (Sample.world_in "SEK") EndNone
               = Return {| year := 2024; month := 2; day := 29 |})
    by reflexivity.
  assert (Hreq : @build_request Sample.base HOURLY (SeqList ["FI"])
                   {| year := 2024; month := 2; day := 29 |}
                 = Return (Sample.request "29-02-2024" "FI"))
    by reflexivity.
  split.
  - exact (Hfetch HOURLY EndNone [] _ _ Hd Hreq eq_refl (ex_intro _ [] eq_refl)).
  - exact (Hparse (ex_intro _ ["FI"] eq_refl) (ex_intro _ [] eq_refl)).
Defined.

(** C4 on a row of another product, ["PB"]. *)
Lemma skipped_row_emits_nothing_witness :
  @row_step Sample.base [] ["FI"] {[ "FI" := ∅ ]}
    (Sample.row (Some "PB-20231015-01") false [Sample.col "High" "2"])
  = Return {[ "FI" := ∅ ]}.
Proof.
  apply (@skipped_row_emits_nothing Sample.base
           (Sample.row (Some "PB-20231015-01") false [Sample.col "High" "2"])).
  right. exists "PB-20231015-01". split; [reflexivity|]. vm_compute. discriminate.
Defined.

(** C5 on the first ["High"] point of the sample document. *)
Lemma price_points_last_one_hour_witness :
  exists r,
    @_parse_json Sample.base Sample.response (SeqList ["High"]) (SeqList ["FI"]) = Return r /\
    lookup2 (res_areas r) "FI" "High"
    = Some [Sample.point 63832924800000000 63832928400000000 52;
            Sample.point 63832928400000000 63832932000000000 61] /\
    PyDate.sub 63832928400000000 63832924800000000 = hours 1.
Proof.
  destruct (observe_Return
              (@_parse_json Sample.base Sample.response (SeqList ["High"]) (SeqList ["FI"]))
              (fun r => lookup2 (res_areas r) "FI" "High")
              (Some [Sample.point 63832924800000000 63832928400000000 52;
                     Sample.point 63832928400000000 63832932000000000 61]))
    as (r & Hr & Hst); [reflexivity|].
  exists r. split; [exact Hr|]. split; [exact Hst|].
  apply lookup2_Some in Hst as (series & Ha & Hk).
  apply (@price_points_last_one_hour Sample.base _ _ _ r Hr "FI" series "High" _
           (Sample.point 63832924800000000 63832928400000000 52) Ha Hk).
  simpl. auto.
Defined.


(** C7 on the extra row of the sample: ["Avg"] gets a fresh empty list. *)
Lemma extra_row_adds_no_point_witness :
  exists areas_data',
    @row_step Sample.base [] ["FI"] Sample.start Sample.extra_row = Return areas_data' /\
    @lookup2 Sample.base Sample.start "FI" "Avg" = None /\
    @lookup2 Sample.base areas_data' "FI" "Avg" = Some [].
Proof.
  destruct (observe_Return
              (@row_step Sample.base [] ["FI"] Sample.start Sample.extra_row)
              (fun ad => @lookup2 Sample.base ad "FI" "Avg") (Some []))
    as (ad & Hr & Hnew); [reflexivity|].
  exists ad. split; [exact Hr|].
  destruct (@extra_row_adds_no_point Sample.base [] ["FI"] Sample.start Sample.extra_row
              ad eq_refl Hr "FI" "Avg")
    as [Hsame|Hfresh]; [|exact Hfresh].
  rewrite Hnew in Hsame. discriminate.
Defined.

(** C8 on [areas = ["FI", "SE"]]. *)
Lemma single_area_key_witness :
  exists r,
    @_parse_json Sample.base Sample.response (SeqList []) (SeqList ["FI"; "SE"]) = Return r /\
    dom (res_areas r) = {[ "FI" ]} /\ res_areas r !! "SE" = None.
Proof.
  destruct (succeeds_returns
              (@_parse_json Sample.base Sample.response (SeqList []) (SeqList ["FI"; "SE"])))
    as [r Hr]; [reflexivity|].
  destruct (@single_area_key Sample.base Sample.response (SeqList [])
              (SeqList ["FI"; "SE"]) r "FI" ["SE"] eq_refl Hr)
    as (Hdom & _ & Hother).
  exists r. split; [exact Hr|]. split; [exact Hdom|]. apply Hother. discriminate.
Defined.

(** C10 on [areas = "FI"]. *)
Lemma string_areas_first_char_witness :
  exists r,
    @_parse_json Sample.base Sample.response (SeqList []) (SeqStr "FI") = Return r /\
    dom (res_areas r) = {[ "F" ]} /\ res_areas r !! "FI" = None.
Proof.
  destruct (succeeds_returns
              (@_parse_json Sample.base Sample.response (SeqList []) (SeqStr "FI")))
    as [r Hr]; [reflexivity|].
  destruct (@string_areas_first_char Sample.base _ _ _ _ r Hr) as (_ & Hdom & Hfull).
  exists r. split; [exact Hr|]. split; [exact Hdom|]. apply Hfull. discriminate.
Defined.

(** C9 on 2024-03-01, a day after a leap day, for the areas FI and SE. *)
Lemma fetch_json_request_witness :
  @_fetch_json Sample.base Sample.world HOURLY (SeqList ["FI"; "SE"]) EndNone []
  = (Return Sample.response, [Sample.request "29-02-2024" "FISE"]) /\
  @resolve_end_date Sample.base Sample.world EndNone
  = Return {| year := 2024; month := 2; day := 29 |}.
Proof.
  destruct (@fetch_json_request Sample.base Sample.world HOURLY (SeqList ["FI"; "SE"])
              EndNone [] {| year := 2024; month := 2; day := 29 |} ["FI"; "SE"]
              eq_refl eq_refl)
    as (Hreq & _ & _ & Hyesterday).
  split; [exact Hreq|].
  destruct Hyesterday as (y & Hy & _ & _ & _).
  - vm_compute. repeat split; discriminate.
  - discriminate.
  - rewrite Hy. f_equal. injection Hy as <-. reflexivity.
Defined.

(** Before the year 1000 the year is printed on fewer than four digits. *)
Example strftime_before_year_1000 :
  strftime_dmY {| year := 999; month := 1; day := 1 |} = "01-01-999".
Proof. reflexivity. Qed.

(** C3 on the sample fetcher: [hourly()] with no argument raises
    [TypeError] and the log of requests stays empty. *)
Example hourly_without_arguments :
  @hourly Sample.base Sample.world EndNone SeqNone SeqNone [] = (Raise TypeError, []).
Proof. reflexivity. Qed.

(** * Further properties *)

(** ** Loops once more *)

(** What each run of the body appends to an observed list adds up over the
    loop, in the order of the elements. *)
Lemma for_each_accumulates {A S B : Type} (obs : S -> list B) (contrib : A -> list B)
    (body : S -> A -> PyResult S) :
  (forall s x s', body s x = Return s' -> obs s' = (obs s ++ contrib x)%list) ->
  forall l s s', for_each body l s = Return s' ->
                 obs s' = (obs s ++ flat_map contrib l)%list.
Proof.
  intros Hbody l. induction l as [|x l IH]; simpl; intros s s' Hrun.
  - injection Hrun as <-. now rewrite app_nil_r.
  - bind_inv Hrun. rewrite (IH _ _ Hrun), (Hbody _ _ _ Hx). now rewrite app_assoc.
Qed.

(** What holds after the loop and not before comes from one of the elements. *)
Lemma for_each_origin {A S : Type} (K : S -> Prop) (Q : A -> Prop)
    (body : S -> A -> PyResult S) :
  (forall s x s', body s x = Return s' -> K s' -> K s \/ Q x) ->
  forall l s s', for_each body l s = Return s' -> K s' ->
                 K s \/ exists x, In x l /\ Q x.
Proof.
  intros Hbody l. induction l as [|x l IH]; simpl; intros s s' Hrun Hk.
  - injection Hrun as <-. now left.
  - bind_inv Hrun. destruct (IH _ _ Hrun Hk) as [Hmid|(y & Hy & Hq)].
    + destruct (Hbody _ _ _ Hx Hmid) as [Hs|Hq]; [now left|].
      right. exists x. auto.
    + right. exists y. auto.
Qed.

(** Loops with bodies that agree everywhere agree. *)
Lemma for_each_ext {A S : Type} (body1 body2 : S -> A -> PyResult S) :
  (forall s x, body1 s x = body2 s x) ->
  forall l s, for_each body1 l s = for_each body2 l s.
Proof.
  intros Hext l. induction l as [|x l IH]; simpl; intros s; [reflexivity|].
  rewrite Hext. destruct (body2 s x); simpl; auto.
Qed.


Section ParseFurther.

Context {self : Base}.

Implicit Types (areas_data : gmap string (gmap string (list PricePoint))).

(** ** The lists, point by point *)

Lemma column_step_points columns areas r ts te areas_data c areas_data' a0 k :
  column_step columns areas r ts te areas_data c = Return areas_data' ->
  index areas 0 = Return a0 ->
  points_at areas_data' a0 k
  = (points_at areas_data a0 k ++ column_points columns k r ts te c)%list.
Proof.
  intros H Ha0. unfold points_at, column_points, requested.
  apply column_step_inv in H as [(Hne & Hmem & ->)|(Hreq & a & series & Ha & Hs & H)].
  { rewrite Hmem. rewrite bool_decide_eq_false_2 by assumption. simpl.
    now rewrite app_nil_r. }
  assert (a = a0) as -> by congruence.
  assert (Hrequested : bool_decide (columns = []) || PyStr.mem (col_Name c) columns = true).
  { destruct Hreq as [-> | ->]; [reflexivity | apply orb_true_r]. }
  rewrite Hrequested. cbn [andb].
  assert (Hold : lookup2 areas_data a0 k = series !! k)
    by (unfold lookup2; now rewrite Hs).
  rewrite Hold.
  destruct H as [(Hex & ->)|(Hex & points & v & Hpts & Hv & ->)];
    rewrite lookup2_insert, decide_True by reflexivity; rewrite Hex.
  - rewrite andb_false_r, app_nil_r, lookup_with_key.
    destruct (decide (col_Name c = k)) as [<-|Hk]; [|reflexivity].
    simpl. now destruct (series !! col_Name c).
  - rewrite andb_true_r, Hv. rewrite lookup_with_key, decide_True in Hpts by reflexivity.
    injection Hpts as <-.
    destruct (String.eqb_spec (col_Name c) k) as [<-|Hk].
    + now rewrite lookup_insert_eq.
    + rewrite lookup_insert_ne, lookup_with_key, decide_False by assumption.
      now rewrite app_nil_r.
Qed.

Lemma row_points_skipped columns k r : skipped r -> row_points columns k r = [].
Proof.
  unfold row_points. intros [->|(n & -> & Hhd)]; [reflexivity|].
  destruct (head (row_tokens n)) as [t|]; [|reflexivity].
  destruct (String.eqb_spec t "PH") as [->|_]; [now elim Hhd | reflexivity].
Qed.

Lemma row_step_points columns areas areas_data r areas_data' a0 k :
  row_step columns areas areas_data r = Return areas_data' ->
  index areas 0 = Return a0 ->
  points_at areas_data' a0 k
  = (points_at areas_data a0 k ++ row_points columns k r)%list.
Proof.
  intros H Ha0.
  apply row_step_inv in H as [(Hskip & ->)|((n' & Hn' & Hhd) & n & ts & te & Hn & Ht & H)].
  { now rewrite row_points_skipped, app_nil_r. }
  assert (n' = n) as -> by congruence.
  unfold row_points. rewrite Hn, Hhd, Ht. simpl.
  revert H. apply (for_each_accumulates (fun ad => points_at ad a0 k)).
  intros s c s' Hstep. eapply column_step_points; eassumption.
Qed.

(** X1. The list a returned result holds under [areas[0]] and key [k] is made
    of the points of the rows in row order, and within a row in column
    order: one point for each requested column named [k] of each retained row
    that is not an extra row, with that row's start and end and the
    column's value (the raw string for ["Product"], the converted number
    otherwise). *)
Theorem points_in_row_order (data : Response) (columns areas : PySeq)
    (r : FetchResult) (a0 : string) (rest cols : list string) :
  _parse_json data columns areas = Return r ->
  as_list areas = Return (a0 :: rest) ->
  as_list columns = Return cols ->
  forall k points,
    lookup2 (res_areas r) a0 k = Some points ->
    points = flat_map (row_points cols k) (Rows (resp_data data)).
Proof.
  intros H Ha Hc k points Hk.
  apply parse_json_inv in H as (a & rest' & cols' & Ha' & Hc' & H).
  rewrite Ha in Ha'. injection Ha' as <- <-. rewrite Hc in Hc'. injection Hc' as <-.
  pose proof (for_each_accumulates (fun ad => points_at ad a0 k) (row_points cols k)
                (row_step cols (a0 :: rest))
                (fun s x s' Hstep => row_step_points _ _ _ _ _ a0 k Hstep eq_refl)
                _ _ _ H) as Hacc.
  unfold points_at in Hacc. rewrite Hk, lookup2_initial in Hacc. exact Hacc.
Qed.

(** ** The keys, exactly *)

Lemma requested_cases (columns : list string) (name : string) :
  requested columns name = true <->
  columns = [] \/ PyStr.mem name columns = true.
Proof.
  unfold requested. rewrite orb_true_iff, bool_decide_eq_true. reflexivity.
Qed.

Lemma row_step_key_origin columns areas areas_data r areas_data' a k :
  row_step columns areas areas_data r = Return areas_data' ->
  is_Some (lookup2 areas_data' a k) ->
  is_Some (lookup2 areas_data a k) \/ key_source columns k r.
Proof.
  intros H Hk.
  apply row_step_inv in H as [(_ & ->)|(Hret & n & ts & te & _ & _ & H)]; [now left|].
  destruct (for_each_origin (fun ad => is_Some (lookup2 ad a k))
              (fun c => col_Name c = k /\ requested columns k = true)
              (column_step columns areas r ts te)) with (3 := Hk) (2 := H)
    as [Hold|(c & Hc & Hname & Hreq)].
  - intros s c s' Hstep Hs'.
    destruct (column_step_lookup2 _ _ _ _ _ _ _ _ Hstep a k)
      as [Heq|(_ & Hname & Hreq & _)].
    + left. now rewrite <- Heq.
    + right. split; [now symmetry|]. now apply requested_cases.
  - now left.
  - right. split; [exact Hret|]. exists c. auto.
Qed.

Lemma row_step_key_source columns areas areas_data r areas_data' a0 k :
  row_step columns areas areas_data r = Return areas_data' ->
  index areas 0 = Return a0 ->
  key_source columns k r ->
  is_Some (lookup2 areas_data' a0 k).
Proof.
  intros H Ha0 ((n & Hn & Hhd) & c & Hc & <- & Hreq).
  apply requested_cases in Hreq.
  apply row_step_inv in H as [([Hnone|(n' & Hn' & Hhd')] & _)|(_ & n' & ts & te & _ & _ & H)].
  - congruence.
  - congruence.
  - revert c Hc Hreq.
    assert (Hall : forall c, In c (row_Columns r) ->
              (columns = [] \/ PyStr.mem (col_Name c) columns = true) ->
              is_Some (lookup2 areas_data' a0 (col_Name c))); [|exact Hall].
    intros c Hc.
    refine (for_each_establishes
              (fun c ad => (columns = [] \/ PyStr.mem (col_Name c) columns = true) ->
                           is_Some (lookup2 ad a0 (col_Name c)))
              _ _ _ _ _ _ H c Hc).
    + intros s x s' Hstep Hreq. eapply column_step_key; eauto.
    + intros y s x s' Hy Hstep Hreq. eapply grows_by_is_Some; [|exact (Hy Hreq)].
      eapply (column_step_grows _ _ _ _ _ _ _ _ (fun _ => True)); [auto | exact Hstep].
Qed.

(** X2. The keys of the series map of [areas[0]] in a returned result are
    exactly the names of the columns of retained rows that pass the filter:
    any name when the requested columns are empty, a requested name
    otherwise. Extra rows count, values do not. *)
Theorem series_keys (data : Response) (columns areas : PySeq)
    (r : FetchResult) (a0 : string) (rest cols : list string) :
  _parse_json data columns areas = Return r ->
  as_list areas = Return (a0 :: rest) ->
  as_list columns = Return cols ->
  forall k,
    is_Some (lookup2 (res_areas r) a0 k) <->
    exists row, In row (Rows (resp_data data)) /\ key_source cols k row.
Proof.
  intros H Ha Hc k.
  apply parse_json_inv in H as (a & rest' & cols' & Ha' & Hc' & H).
  rewrite Ha in Ha'. injection Ha' as <- <-. rewrite Hc in Hc'. injection Hc' as <-.
  split.
  - intros Hk.
    destruct (for_each_origin (fun ad => is_Some (lookup2 ad a0 k)) (key_source cols k)
                (row_step cols (a0 :: rest))) with (3 := Hk) (2 := H)
      as [Hinit|Hsrc].
    + intros s x s' Hstep Hs'. eapply row_step_key_origin; eassumption.
    + rewrite lookup2_initial in Hinit. destruct Hinit as [? [=]].
    + exact Hsrc.
  - intros (row & Hrow & Hsrc).
    refine (for_each_establishes
              (fun row ad => key_source cols k row -> is_Some (lookup2 ad a0 k))
              _ _ _ _ _ _ H row Hrow Hsrc).
    + intros s x s' Hstep Hx. eapply row_step_key_source; eauto.
    + intros y s x s' Hy Hstep Hsrc'. eapply row_step_keeps_key; [exact Hstep|]. auto.
Qed.

(** Keys of a filtered result are requested names, under every area. *)
Lemma parse_json_keys_within (data : Response) (columns areas : PySeq)
    (r : FetchResult) (cols : list string) :
  _parse_json data columns areas = Return r ->
  as_list columns = Return cols -> cols <> [] ->
  forall a series k,
    res_areas r !! a = Some series -> is_Some (series !! k) -> PyStr.mem k cols = true.
Proof.
  intros H Hc Hne a series k Hs Hk.
  apply parse_json_inv in H as (a0 & rest & cols' & _ & Hc' & H).
  rewrite Hc in Hc'. injection Hc' as <-.
  assert (Hall : forall a k, is_Some (lookup2 (res_areas r) a k) -> PyStr.mem k cols = true).
  { revert H.
    apply (for_each_preserves
             (fun ad => forall a k, is_Some (lookup2 ad a k) -> PyStr.mem k cols = true)).
    - intros s x s' Hinv Hstep. eapply row_step_keys_within; eassumption.
    - intros a' k' Hk'. rewrite lookup2_initial in Hk'. destruct Hk' as [? [=]]. }
  apply (Hall a). unfold lookup2. now rewrite Hs.
Qed.

(** ** What the arguments are used for *)

(** X3. With an empty [areas] sequence [_parse_json] never returns: once the
    arguments, the currency and [DateUpdated] are through, line 45 raises
    [IndexError], whatever the rows. *)
Theorem empty_areas_raise (data : Response) (columns areas : PySeq) :
  as_list areas = Return [] ->
  (forall r, _parse_json data columns areas <> Return r) /\
  (returns (as_list columns) -> resp_currency data = currency ->
   returns (_parse_dt (DateUpdated (resp_data data))) ->
   _parse_json data columns areas = Raise IndexError).
Proof.
  intros Ha. unfold _parse_json. rewrite Ha. cbn [bind]. split.
  - intros r H. bind_inv H. destruct (negb _); [discriminate|].
    bind_inv H. bind_inv H. discriminate.
  - intros [cols ->] Hcur [t Ht]. cbn [bind].
    apply String.eqb_eq in Hcur. rewrite Hcur, Ht. reflexivity.
Qed.

(** X4. Only the first area is ever looked at: the result for a sequence of
    areas is the result for its first element alone. *)
Theorem only_first_area_matters (data : Response) (columns areas : PySeq)
    (a0 : string) (rest : list string) :
  as_list areas = Return (a0 :: rest) ->
  _parse_json data columns areas = _parse_json data columns (SeqList [a0]).
Proof.
  intros Ha. unfold _parse_json. rewrite Ha. cbn [as_list bind].
  destruct (as_list columns) as [cols|]; [|reflexivity]. cbn [bind].
  destruct (negb _); [reflexivity|].
  destruct (_parse_dt _); [|reflexivity]. cbn [bind index]. simpl.
  rewrite (for_each_ext (row_step cols (a0 :: rest)) (row_step cols [a0])); [reflexivity|].
  intros s r. unfold row_step. destruct (row_Name r); [|reflexivity].
  destruct (index _ 0); [|reflexivity]. cbn [bind].
  destruct (negb _); [reflexivity|].
  destruct (row_times _); [|reflexivity]. cbn [bind].
  apply for_each_ext. intros s' c. reflexivity.
Qed.

Lemma mem_nil_iff (l : list string) : (forall x, PyStr.mem x l = false) <-> l = [].
Proof.
  split; [|intros ->; reflexivity].
  destruct l as [|y l]; [reflexivity|]. intros H. specialize (H y).
  unfold PyStr.mem in H. simpl in H. now rewrite String.eqb_refl in H.
Qed.

(** X5. The requested columns count only through membership: two sequences
    holding the same names, in any order and with any repetition, give the
    same result. *)
Theorem columns_as_a_set (data : Response) (columns1 columns2 areas : PySeq)
    (cols1 cols2 : list string) :
  as_list columns1 = Return cols1 ->
  as_list columns2 = Return cols2 ->
  (forall x, PyStr.mem x cols1 = PyStr.mem x cols2) ->
  _parse_json data columns1 areas = _parse_json data columns2 areas.
Proof.
  intros H1 H2 Hmem. unfold _parse_json. rewrite H1, H2.
  destruct (as_list areas) as [al|]; [|reflexivity]. cbn [bind].
  destruct (negb _); [reflexivity|].
  destruct (_parse_dt _); [|reflexivity]. cbn [bind].
  destruct (index al 0); [|reflexivity]. cbn [bind].
  assert (Hnil : bool_decide (cols1 = []) = bool_decide (cols2 = [])).
  { apply bool_decide_ext. rewrite <- !mem_nil_iff.
    split; intros H x; [rewrite <- Hmem | rewrite Hmem]; apply H. }
  rewrite (for_each_ext (row_step cols1 al) (row_step cols2 al)); [reflexivity|].
  intros s r. unfold row_step. destruct (row_Name r); [|reflexivity].
  destruct (index _ 0); [|reflexivity]. cbn [bind].
  destruct (negb _); [reflexivity|].
  destruct (row_times _); [|reflexivity]. cbn [bind].
  apply for_each_ext. intros s' c. unfold column_step. now rewrite Hnil, Hmem.
Qed.

(** ** Rows that cannot be read *)




(** X7. A returned result means every retained row was read in full: its
    name gave a start and an end, and, unless it is an extra row, each of its
    requested columns gave a value, so that [_conv_to_float] returned on the
    value of every such column other than ["Product"]. *)
Theorem result_means_all_rows_read (data : Response) (columns areas : PySeq)
    (r : FetchResult) (cols : list string) :
  _parse_json data columns areas = Return r ->
  as_list columns = Return cols ->
  forall row n,
    In row (Rows (resp_data data)) ->
    row_Name row = Some n -> head (row_tokens n) = Some "PH" ->
    returns (row_times (row_tokens n)) /\
    (row_IsExtraRow row = false ->
     forall c, In c (row_Columns row) -> requested cols (col_Name c) = true ->
               col_Name c <> "Product" ->
               returns (_conv_to_float (col_Value c))).
Proof.
  intros H Hc row n Hrow Hn Hhd.
  apply parse_json_inv in H as (a0 & rest & cols' & _ & Hc' & H).
  rewrite Hc in Hc'. injection Hc' as <-.
  refine (for_each_establishes
            (fun row _ => forall n, row_Name row = Some n ->
               head (row_tokens n) = Some "PH" ->
               returns (row_times (row_tokens n)) /\
               (row_IsExtraRow row = false ->
                forall c, In c (row_Columns row) -> requested cols (col_Name c) = true ->
                          col_Name c <> "Product" ->
                          returns (_conv_to_float (col_Value c))))
            _ _ _ _ _ _ H row Hrow n Hn Hhd); [|auto].
  clear. intros s row s' Hstep n Hn Hhd.
  apply row_step_inv in Hstep
    as [([Hnone|(n' & Hn' & Hhd')] & _)|(_ & n' & ts & te & Hn' & Ht & Hcols)];
    try congruence.
  assert (n' = n) as -> by congruence.
  split; [rewrite Ht; eexists; reflexivity|].
  intros Hex c Hc Hreq Hprod.
  refine (for_each_establishes
            (fun c _ => requested cols (col_Name c) = true -> col_Name c <> "Product" ->
                        returns (_conv_to_float (col_Value c)))
            _ _ _ _ _ _ Hcols c Hc Hreq Hprod); [|auto].
  intros s0 c0 s1 Hstep Hreq0 Hprod0.
  apply column_step_inv in Hstep as [(Hne & Hmem & _)|(_ & a & series & _ & _ & Hstep)].
  { apply requested_cases in Hreq0 as [?|?]; congruence. }
  destruct Hstep as [(Hex' & _)|(_ & points & v & _ & Hv & _)]; [congruence|].
  unfold column_value in Hv.
  destruct (String.eqb_spec (col_Name c0) "Product") as [?|_]; [contradiction|].
  destruct (_conv_to_float (col_Value c0)); [eexists; reflexivity | discriminate].
Qed.

End ParseFurther.

Section FetchFurther.

Context {self : Base} {world : World}.

Lemma join_seq_as_list (areas : PySeq) (joined : string) :
  join_seq areas = Return joined ->
  exists l, as_list areas = Return l /\ joined = concatenated l.
Proof.
  destruct areas as [|s|l|l]; simpl; intros [=]; subst;
    eexists; (split; [reflexivity | apply join_empty_sep]).
Qed.

Lemma build_request_as_list (data_type : Z) (areas : PySeq) (d : date) (l : list string) :
  as_list areas = Return l ->
  build_request data_type areas d = Return (request_for data_type d l).
Proof.
  intros Ha. unfold build_request, request_for.
  assert (Hj : join_seq areas = Return (concatenated l)).
  { destruct areas; simpl in Ha; try discriminate; injection Ha as <-;
      simpl; now rewrite join_empty_sep. }
  now rewrite Hj.
Qed.

(** X8. Whatever [fetch] is called with and however it ends, it sends at
    most one request. It sends none exactly when it fails on its arguments,
    and then it returns nothing; otherwise the one request is the one for the
    resolved date and all the areas, and a returned result is the parse of
    the answer to it, keyed by the first area alone. *)
Theorem fetch_sends_at_most_one_request (data_type : Z) (columns : PySeq)
    (end_date : EndDateArg) (areas : PySeq) (log : list Request)
    (res : PyResult FetchResult) (log' : list Request) :
  fetch data_type columns end_date areas log = (res, log') ->
  (log' = log /\ (forall r, res <> Return r) /\
   (returns (resolve_end_date end_date) -> as_list areas = Raise TypeError)) \/
  (exists d l,
     resolve_end_date end_date = Return d /\ as_list areas = Return l /\
     log' = (log ++ [request_for data_type d l])%list /\
     forall r, res = Return r ->
       exists data a0 rest,
         requests_get_json (request_for data_type d l) = Return data /\
         _parse_json data columns areas = Return r /\
         l = a0 :: rest /\ dom (res_areas r) = {[ a0 ]}).
Proof.
  rewrite fetch_unfold. intros H.
  destruct (resolve_end_date end_date) as [d|e] eqn:Hd.
  2:{ left. injection H as <- <-. split; [reflexivity|]. split; [discriminate|].
      intros [? [=]]. }
  destruct (build_request data_type areas d) as [req|e] eqn:Hreq.
  2:{ left. injection H as <- <-. split; [reflexivity|]. split; [discriminate|].
      intros _. unfold build_request in Hreq.
      destruct areas; simpl in Hreq; try discriminate. reflexivity. }
  right. apply build_request_Return in Hreq as (joined & Hj & ->).
  apply join_seq_as_list in Hj as (l & Hl & ->).
  exists d, l. split; [reflexivity|]. split; [exact Hl|].
  fold (request_for data_type d l) in H |- *.
  destruct (requests_get_json (request_for data_type d l)) as [data|e] eqn:Hget;
    injection H as <- <-; (split; [reflexivity|]); intros r Hr; [|discriminate].
  destruct (parse_json_inv _ _ _ _ Hr) as (a0 & rest & cols & Ha & _ & _).
  rewrite Hl in Ha. injection Ha as ->.
  exists data, a0, rest. split; [reflexivity|]. split; [exact Hr|]. split; [reflexivity|].
  eapply parse_json_dom; eassumption.
Qed.

(** X9. A failure of the transport, or of decoding the answer, comes out of
    [fetch] as it is, after the one request has been sent; nothing is retried
    and nothing is parsed. *)
Theorem transport_error_propagates (data_type : Z) (columns : PySeq)
    (end_date : EndDateArg) (areas : PySeq) (log : list Request)
    (d : date) (l : list string) (e : exn) :
  resolve_end_date end_date = Return d ->
  as_list areas = Return l ->
  requests_get_json (request_for data_type d l) = Raise e ->
  fetch data_type columns end_date areas log
  = (Raise e, (log ++ [request_for data_type d l])%list).
Proof.
  intros Hd Hl Hget.
  now rewrite fetch_unfold, Hd, (build_request_as_list _ _ _ _ Hl), Hget.
Qed.

(** X10. An [end_date] string that [dateutil] cannot parse stops [fetch]
    before anything else: the parser's error comes out as it is and no
    request is sent, whatever the other arguments, [areas=None] included. *)
Theorem unparsable_end_date_stops_fetch (data_type : Z) (columns areas : PySeq)
    (log : list Request) (s : string) (e : exn) :
  parse_dt s = Raise e ->
  fetch data_type columns (EndStr s) areas log = (Raise e, log) /\
  hourly (EndStr s) areas columns log = (Raise e, log).
Proof.
  intros Hs. unfold hourly. rewrite !fetch_unfold. simpl. now rewrite Hs.
Qed.

Lemma mem_In (x : string) (l : list string) : PyStr.mem x l = true -> In x l.
Proof.
  unfold PyStr.mem. intros H. apply existsb_exists in H as (y & Hy & Heq).
  apply String.eqb_eq in Heq. now subst.
Qed.

(** X11. [hourly] called without [columns] never yields a key outside its
    six default names, whatever columns the answer holds. *)
Theorem hourly_default_keys (end_date : EndDateArg) (areas : PySeq)
    (log : list Request) (r : FetchResult) (log' : list Request) :
  hourly end_date areas SeqNone log = (Return r, log') ->
  forall a series k,
    res_areas r !! a = Some series -> is_Some (series !! k) ->
    In k ["Product"; "High"; "Low"; "Last"; "Avg"; "Volume"].
Proof.
  unfold hourly. rewrite fetch_unfold. intros H a series k Hs Hk.
  destruct (resolve_end_date end_date) as [d|]; [|discriminate].
  destruct (build_request HOURLY areas d) as [req|]; [|discriminate].
  destruct (requests_get_json req) as [data|]; [|discriminate].
  injection H as H _. apply mem_In.
  eapply (parse_json_keys_within data _ areas r); [exact H|reflexivity|discriminate| |];
    eassumption.
Qed.

(** X12. [fetch] called with [columns=None] fails only after the request has
    been sent: the answer is fetched and then dropped with [TypeError], its
    currency not even looked at. *)
Theorem fetch_without_columns (data_type : Z) (end_date : EndDateArg) (areas : PySeq)
    (log : list Request) (d : date) (l : list string) (data : Response) :
  resolve_end_date end_date = Return d ->
  as_list areas = Return l ->
  requests_get_json (request_for data_type d l) = Return data ->
  fetch data_type SeqNone end_date areas log
  = (Raise TypeError, (log ++ [request_for data_type d l])%list).
Proof.
  intros Hd Hl Hget.
  rewrite fetch_unfold, Hd, (build_request_as_list _ _ _ _ Hl), Hget.
  unfold _parse_json. now rewrite Hl.
Qed.

End FetchFurther.

(** ** The tokens of a row name *)

Lemma split_pieces_without (c sep : ascii) (s t : string) :
  has_char c s = false -> In t (PyStr.split sep s) -> has_char c t = false.
Proof.
  revert t. induction s as [|a s IH]; simpl; intros t Hs Hin.
  - destruct Hin as [<-|[]]. reflexivity.
  - apply orb_false_iff in Hs as [Ha Hs].
    destruct (Ascii.eqb a sep).
    + destruct Hin as [<-|Hin]; [reflexivity | now apply IH].
    + destruct (PyStr.split sep s) as [|w ws] eqn:Hsplit.
      * destruct Hin as [<-|[]]. simpl. now rewrite Ha.
      * destruct Hin as [<-|Hin].
        -- simpl. rewrite Ha. apply IH; [assumption | now left].
        -- apply IH; [assumption | now right].
Qed.

Lemma split_pieces_without_sep (sep : ascii) (s t : string) :
  In t (PyStr.split sep s) -> has_char sep t = false.
Proof.
  revert t. induction s as [|a s IH]; simpl; intros t Hin.
  - destruct Hin as [<-|[]]. reflexivity.
  - destruct (Ascii.eqb a sep) eqn:Ha.
    + destruct Hin as [<-|Hin]; [reflexivity | now apply IH].
    + destruct (PyStr.split sep s) as [|w ws] eqn:Hsplit.
      * destruct Hin as [<-|[]]. simpl. now rewrite Ha.
      * destruct Hin as [<-|Hin].
        -- simpl. rewrite Ha. apply IH. now left.
        -- apply IH. now right.
Qed.

Lemma has_char_append (c : ascii) (s1 s2 : string) :
  has_char c (s1 ++ s2) = has_char c s1 || has_char c s2.
Proof.
  induction s1 as [|a s1 IH]; [reflexivity|].
  change (has_char c (String a (s1 ++ s2)) = has_char c (String a s1) || has_char c s2).
  simpl. now rewrite IH, orb_assoc.
Qed.

Lemma join_without (c : ascii) (sep : string) (l : list string) :
  has_char c sep = false -> (forall t, In t l -> has_char c t = false) ->
  has_char c (PyStr.join sep l) = false.
Proof.
  intros Hsep. induction l as [|x l IH]; intros Hl; [reflexivity|].
  destruct l as [|y l]; [apply Hl; now left|].
  change (PyStr.join sep (x :: y :: l)) with (x ++ sep ++ PyStr.join sep (y :: l)).
  rewrite !has_char_append, Hsep, (Hl x) by now left.
  simpl. apply IH. intros t Ht. apply Hl. now right.
Qed.

(** X13. A row name always has a first token, and none of its tokens holds
    a ['-'] or a blank: whatever the name, a date written with dashes or
    blanks never reaches [_parse_dt] as one token. *)
Theorem row_tokens_hold_no_separator (n : string) :
  row_tokens n <> [] /\
  forall t, In t (row_tokens n) -> has_char "-" t = false /\ has_char " " t = false.
Proof.
  unfold row_tokens. split; [apply split_nonempty|]. intros t Hin. split.
  - eapply split_pieces_without; [|exact Hin].
    apply join_without; [reflexivity|]. intros p Hp.
    eapply split_pieces_without_sep. exact Hp.
  - eapply split_pieces_without_sep. exact Hin.
Qed.

(** * The further properties at work on the sample fetcher *)

(** X1 on the ["High"] column of the sample document. *)
Lemma points_in_row_order_witness :
  exists r,
    @_parse_json Sample.base Sample.response (SeqList ["High"]) (SeqList ["FI"]) = Return r /\
    [Sample.point 63832924800000000 63832928400000000 52;
     Sample.point 63832928400000000 63832932000000000 61]
    = flat_map (@row_points Sample.base ["High"] "High") Sample.rows.
Proof.
  destruct (observe_Return
              (@_parse_json Sample.base Sample.response (SeqList ["High"]) (SeqList ["FI"]))
              (fun r => lookup2 (res_areas r) "FI" "High")
              (Some [Sample.point 63832924800000000 63832928400000000 52;
                     Sample.point 63832928400000000 63832932000000000 61]))
    as (r & Hr & Hst); [reflexivity|].
  exists r. split; [exact Hr|].
  exact (@points_in_row_order Sample.base Sample.response (SeqList ["High"])
           (SeqList ["FI"]) r "FI" [] ["High"] Hr eq_refl eq_refl "High" _ Hst).
Defined.

(** X2 on the sample document without a filter: ["Avg"], which only the
    extra row has, is a key. *)
Lemma series_keys_witness :
  exists r,
    @_parse_json Sample.base Sample.response (SeqList []) (SeqList ["FI"]) = Return r /\
    is_Some (lookup2 (res_areas r) "FI" "Avg").
Proof.
  destruct (succeeds_returns
              (@_parse_json Sample.base Sample.response (SeqList []) (SeqList ["FI"])))
    as [r Hr]; [reflexivity|].
  exists r. split; [exact Hr|].
  apply (@series_keys Sample.base Sample.response (SeqList []) (SeqList ["FI"])
           r "FI" [] [] Hr eq_refl eq_refl "Avg").
  exists Sample.extra_row. split; [simpl; tauto|]. split.
  - exists "PH-20231015-25". split; reflexivity.
  - exists (Sample.col "Avg" "4"). split; [simpl; tauto|]. split; reflexivity.
Defined.

(** X3 on the sample document with [areas = []]. *)
Lemma empty_areas_raise_witness :
  @_parse_json Sample.base Sample.response (SeqList ["High"]) (SeqList [])
  = Raise IndexError.
Proof.
  apply (@empty_areas_raise Sample.base Sample.response (SeqList ["High"]) (SeqList [])
           eq_refl);
    [eexists; reflexivity | reflexivity | eexists; reflexivity].
Defined.

(** X4 on [areas = ["FI", "SE"]]. *)
Lemma only_first_area_matters_witness :
  @_parse_json Sample.base Sample.response (SeqList []) (SeqList ["FI"; "SE"])
  = @_parse_json Sample.base Sample.response (SeqList []) (SeqList ["FI"]).
Proof.
  exact (@only_first_area_matters Sample.base Sample.response (SeqList [])
           (SeqList ["FI"; "SE"]) "FI" ["SE"] eq_refl).
Defined.

(** X5 on a list with a repeated name and a tuple in another order. *)
Lemma columns_as_a_set_witness :
  @_parse_json Sample.base Sample.response (SeqList ["High"; "Low"; "High"]) (SeqList ["FI"])
  = @_parse_json Sample.base Sample.response (SeqTuple ["Low"; "High"]) (SeqList ["FI"]).
Proof.
  apply (@columns_as_a_set Sample.base Sample.response (SeqList ["High"; "Low"; "High"])
           (SeqTuple ["Low"; "High"]) (SeqList ["FI"])
           ["High"; "Low"; "High"] ["Low"; "High"] eq_refl eq_refl).
  intros x. unfold PyStr.mem. simpl.
  destruct (String.eqb x "High"), (String.eqb x "Low"); reflexivity.
Defined.


(** X7 on the sample document: the value ["61"] was converted. *)
Lemma result_means_all_rows_read_witness :
  returns (@_conv_to_float Sample.base "61").
Proof.
  destruct (succeeds_returns
              (@_parse_json Sample.base Sample.response (SeqList []) (SeqList ["FI"])))
    as [r Hr]; [reflexivity|].
  destruct (@result_means_all_rows_read Sample.base Sample.response (SeqList [])
              (SeqList ["FI"]) r [] Hr eq_refl
              (Sample.row (Some "PH-20231015-02") false
                 [Sample.col "Product" "PH-20231015-02"; Sample.col "High" "61";
                  Sample.col "Low" "45"])
              "PH-20231015-02")
    as [_ Hconv]; [simpl; tauto | reflexivity | reflexivity |].
  apply (Hconv eq_refl (Sample.col "High" "61")); [simpl; tauto | reflexivity | discriminate].
Defined.

(** X8 on a call of the sample fetcher. *)
Lemma fetch_sends_at_most_one_request_witness :
  exists res log',
    @fetch Sample.base Sample.world HOURLY (SeqList []) EndNone (SeqList ["FI"]) []
    = (res, log') /\ (length log' <= 1)%nat.
Proof.
  destruct (@fetch Sample.base Sample.world HOURLY (SeqList []) EndNone (SeqList ["FI"]) [])
    as [res log'] eqn:H.
  exists res, log'. split; [reflexivity|].
  destruct (@fetch_sends_at_most_one_request Sample.base Sample.world _ _ _ _ _ _ _ H)
    as [(-> & _)|(d & l & _ & _ & -> & _)]; simpl; lia.
Defined.

(** X9 on a network that refuses the connection. *)
Lemma transport_error_propagates_witness :
  @fetch Sample.base (down_world (OtherError "connection refused"))
    HOURLY (SeqList []) EndNone (SeqList ["FI"]) []
  = (Raise (OtherError "connection refused"), [Sample.request "29-02-2024" "FI"]).
Proof.
  exact (@transport_error_propagates Sample.base
           (down_world (OtherError "connection refused"))
           HOURLY (SeqList []) EndNone (SeqList ["FI"]) []
           {| year := 2024; month := 2; day := 29 |} ["FI"]
           (OtherError "connection refused") eq_refl eq_refl eq_refl).
Defined.

(** X10 on the end date ["tomorrow"], with no areas. *)
Lemma unparsable_end_date_stops_fetch_witness :
  @fetch Sample.base Sample.world HOURLY (SeqList []) (EndStr "tomorrow") SeqNone []
  = (Raise ValueError, []).
Proof.
  exact (proj1 (@unparsable_end_date_stops_fetch Sample.base Sample.world HOURLY
                  (SeqList []) SeqNone [] "tomorrow" ValueError eq_refl)).
Defined.

(** X11 on [hourly(areas=["FI"])]: ["Avg"] is among the defaults, and a key. *)
Lemma hourly_default_keys_witness :
  exists r log',
    @hourly Sample.base Sample.world EndNone (SeqList ["FI"]) SeqNone [] = (Return r, log') /\
    exists series, res_areas r !! "FI" = Some series /\
                   (forall k, is_Some (series !! k) ->
                              In k ["Product"; "High"; "Low"; "Last"; "Avg"; "Volume"]).
Proof.
  assert (Hs : succeeds (fst (@hourly Sample.base Sample.world EndNone (SeqList ["FI"])
                                SeqNone [])) = true) by reflexivity.
  destruct (@hourly Sample.base Sample.world EndNone (SeqList ["FI"]) SeqNone [])
    as [[r|e] log'] eqn:H; [|discriminate Hs].
  exists r, log'. split; [reflexivity|].
  pose proof (@hourly_default_keys Sample.base Sample.world _ _ _ r log' H) as Hkeys.
  assert (Hr : exists data, @_parse_json Sample.base data
                 (SeqList ["Product"; "High"; "Low"; "Last"; "Avg"; "Volume"])
                 (SeqList ["FI"]) = Return r).
  { unfold hourly in H. rewrite fetch_unfold in H.
    destruct (resolve_end_date EndNone); [|discriminate].
    destruct (build_request HOURLY (SeqList ["FI"]) _); [|discriminate].
    destruct (requests_get_json _) as [data|]; [|discriminate].
    injection H as H _. eauto. }
  destruct Hr as [data Hr].
  assert (Hdom : dom (res_areas r) = {[ "FI" ]})
    by (eapply parse_json_dom; [|exact Hr]; reflexivity).
  destruct (res_areas r !! "FI") as [series|] eqn:Hfi.
  - exists series. split; [reflexivity|]. intros k. apply (Hkeys "FI" series k Hfi).
  - exfalso. apply (not_elem_of_dom (res_areas r) "FI") in Hfi. apply Hfi.
    rewrite Hdom. now apply elem_of_singleton.
Defined.

(** X12 on [fetch(194, None, areas=["FI"])]. *)
Lemma fetch_without_columns_witness :
  @fetch Sample.base Sample.world HOURLY SeqNone EndNone (SeqList ["FI"]) []
  = (Raise TypeError, [Sample.request "29-02-2024" "FI"]).
Proof.
  exact (@fetch_without_columns Sample.base Sample.world HOURLY EndNone (SeqList ["FI"]) []
           {| year := 2024; month := 2; day := 29 |} ["FI"] Sample.response
           eq_refl eq_refl eq_refl).
Defined.
